(** * pnode_pulse: the Python SDK of the pNode Pulse API

    A shallow embedding of [pnode_pulse/exceptions.py], [pnode_pulse/models.py]
    and [pnode_pulse/client.py], and the properties of the error and rate-limit
    translation, of the query parameters the resource facades build, and of
    the symmetry of the synchronous and asynchronous clients.

    Python exceptions are an explicit result type; the one effect of the
    client, issuing an HTTP request through [self._http], is a writer of the
    requests handed to the transport.  A text ([string]) is a str whose code
    points are all below 256, one character for each code point. *)

From Stdlib Require Import ZArith Ascii String Floats.
From stdpp Require Import base option strings list gmap pretty.

Local Open Scope string_scope.

(** ** Python values

    The values that flow through the client: what [response.json()] returns
    (None, bool, int, float, str, list, dict), which is also the type [Any] of
    the query parameters and of the message and code an error body carries.  A
    dict is the list of its items, each key bound once, in insertion order. *)

#[warnings="-register-all"]
Inductive pyval : Type :=
| PyNone
| PyBool (b : bool)
| PyInt (n : Z)
| PyFloat (x : float)
| PyStr (s : string)
| PyList (l : list pyval)
| PyDict (items : list (string * pyval)).

(** [d.get(key)] on the items of a dict. *)
Fixpoint dict_get (items : list (string * pyval)) (key : string) : option pyval :=
  match items with
  | [] => None
  | (k, v) :: rest => if String.eqb k key then Some v else dict_get rest key
  end.

(** ** Characters and text: the builtins the client calls *)

Definition ascii_code (a : ascii) : N := Ascii.N_of_ascii a.

(** Lower case as httpx applies it to header names: [bytes.lower()] on a
    stored name, which touches the ASCII letters only, and [str.lower()] on
    the ASCII names the client asks for. *)
Definition ascii_lower (a : ascii) : ascii :=
  let n := ascii_code a in
  if ((65 <=? n) && (n <=? 90))%N then Ascii.ascii_of_N (n + 32) else a.

Fixpoint lower (s : string) : string :=
  match s with
  | EmptyString => EmptyString
  | String a rest => String (ascii_lower a) (lower rest)
  end.

(** [s.rstrip("/")]: every trailing slash goes. *)
Fixpoint rstrip_slash (s : string) : string :=
  match s with
  | EmptyString => EmptyString
  | String a rest =>
      match rstrip_slash rest with
      | EmptyString => if Ascii.eqb a "/" then EmptyString else String a EmptyString
      | rest' => String a rest'
      end
  end.

(** [", ".join(items)]. *)
Fixpoint join_comma (items : list string) : string :=
  match items with
  | [] => ""
  | [x] => x
  | x :: rest => x +:+ ", " +:+ join_comma rest
  end.

(** Truth value of an [Optional[str]] in [if version:]. *)
Definition truthy (o : option string) : bool :=
  match o with
  | None => false
  | Some s => negb (String.eqb s "")
  end.

(** *** [int(text)]

    CPython's conversion of a str to an int in base 10: blanks around the
    literal are dropped, one sign is allowed, then decimal digits, where one
    underscore may stand between two digits; more than [int_max_str_digits]
    digits are refused.  Anything else is a ValueError ([None] here).

    Before it reads the literal CPython turns every code point from 127 on
    that is a Unicode blank into a space, every one that is a Unicode decimal
    digit into its ASCII digit, and refuses the others.  Below 256 the blanks
    are U+0085 and U+00A0 and there is no decimal digit, so here the two count
    as blanks and every other code point from 127 on ends the literal. *)

(** The blanks of [int()]: tab, newline, vertical tab, form feed, carriage
    return and space ([Py_ISSPACE]), and the two Unicode blanks below 256,
    next line (U+0085) and no-break space (U+00A0). *)
Definition is_space (a : ascii) : bool :=
  let n := ascii_code a in
  (((9 <=? n) && (n <=? 13)) || (n =? 32) || (n =? 133) || (n =? 160))%N.

Definition digit_value (a : ascii) : option Z :=
  let n := ascii_code a in
  if ((48 <=? n) && (n <=? 57))%N then Some (Z.of_N n - 48)%Z else None.

Definition is_underscore (a : ascii) : bool := Ascii.eqb a "_".

Fixpoint skip_spaces (l : list ascii) : list ascii :=
  match l with
  | a :: rest => if is_space a then skip_spaces rest else l
  | [] => []
  end.

(** The interpreter's default [sys.get_int_max_str_digits()]. *)
Definition int_max_str_digits : nat := 4300.

(** The scan of the digits: [prev_us] tells whether the previous character
    was an underscore, [acc] is the value so far and [count] the number of
    digits read.  It stops at the first character that is neither a digit
    nor an underscore and hands back the rest of the text. *)
Fixpoint scan_digits (l : list ascii) (prev_us : bool) (acc : Z) (count : nat)
  : option (Z * nat * list ascii) :=
  match l with
  | [] => if prev_us then None else Some (acc, count, [])
  | a :: rest =>
      match digit_value a with
      | Some d => scan_digits rest false (10 * acc + d)%Z (S count)
      | None =>
          if is_underscore a
          then if prev_us then None else scan_digits rest true acc count
          else if prev_us then None else Some (acc, count, l)
      end
  end.

Definition int_of_chars (l : list ascii) : option Z :=
  let l := skip_spaces l in
  let '(sign, l) :=
    match l with
    | a :: rest =>
        if Ascii.eqb a "+" then (1%Z, rest)
        else if Ascii.eqb a "-" then ((-1)%Z, rest)
        else (1%Z, l)
    | [] => (1%Z, l)
    end in
  match l with
  | a :: _ =>
      if is_underscore a then None
      else
        match scan_digits l false 0%Z 0 with
        | Some (n, count, rest) =>
            match count, skip_spaces rest with
            | O, _ => None
            | _, [] => if (int_max_str_digits <? count)%nat then None else Some (sign * n)%Z
            | _, _ :: _ => None
            end
        | None => None
        end
  | [] => None
  end.

Definition int_of_str (s : string) : option Z :=
  int_of_chars (list_ascii_of_string s).

(** ** The httpx objects the client touches

    The library is not part of the repository: a response is what its
    accessors give ([status_code], [headers], [text], and [json()], which
    raises when the body is not JSON), a request is the keyword arguments of
    [Client.request], and the exception classes are those of httpx with their
    place in its hierarchy. *)

Module httpx.

Inductive exc_class : Type :=
| ConnectTimeout | ReadTimeout | WriteTimeout | PoolTimeout
| ConnectError | ReadError | WriteError | CloseError
| LocalProtocolError | RemoteProtocolError
| ProxyError | UnsupportedProtocol
| DecodingError | TooManyRedirects
| HTTPStatusError
| InvalidURL | CookieConflict | StreamError.

(** [issubclass(c, httpx.TimeoutException)]. *)
Definition is_TimeoutException (c : exc_class) : bool :=
  match c with
  | ConnectTimeout | ReadTimeout | WriteTimeout | PoolTimeout => true
  | _ => false
  end.

(** [issubclass(c, httpx.RequestError)]: the transport errors, the decoding
    error and the redirect error. *)
Definition is_RequestError (c : exc_class) : bool :=
  match c with
  | HTTPStatusError | InvalidURL | CookieConflict | StreamError => false
  | _ => true
  end.

(** [httpx.Headers]: the header lines in order; names compare without case
    and the values of a repeated name are joined with a comma. *)
Module Headers.

Definition t : Type := list (string * string).

Definition values (h : t) (key : string) : list string :=
  map snd (filter (λ kv, String.eqb (lower kv.1) (lower key) = true) h).

(** [headers[key]], [None] for the KeyError. *)
Definition getitem (h : t) (key : string) : option string :=
  match values h key with
  | [] => None
  | items => Some (join_comma items)
  end.

(** [headers.get(key, default)] with a default of another type. *)
Definition get {A : Type} (h : t) (key : string) (default : A) : string + A :=
  match getitem h key with
  | Some v => inl v
  | None => inr default
  end.

End Headers.

Module Response.

Record t : Type := mk {
  status_code : Z;
  headers : Headers.t;
  text : string;
  (** what [json()] returns, [None] when it raises *)
  json : option pyval
}.

(** [response.is_success]: a 2xx status. *)
Definition is_success (r : t) : bool :=
  ((200 <=? status_code r) && (status_code r <=? 299))%Z.

End Response.

Module Request.

Record t : Type := mk {
  method : string;
  url : string;
  params : option (gmap string pyval);
  headers : gmap string string
}.

End Request.

End httpx.

(** ** pydantic: validation of a JSON value against a model

    [Model.model_validate(data)] either builds the record or raises
    pydantic's ValidationError.  What the library accepts for a field of a
    scalar type (an int written as a string, a timestamp in one of several
    notations, ...) is the library's business and no property below depends on
    it: the coercions are an interface, [Coercions].  What models.py itself
    fixes is embedded: which fields a model has, under which alias each is
    read ([populate_by_name] lets the field name stand in for a missing
    alias), which are required, which default to None, and how models nest. *)

Module pydantic.

Record datetime : Type := mk_datetime {
  year : Z; month : Z; day : Z;
  hour : Z; minute : Z; second : Z; microsecond : Z;
  utcoffset : option Z
}.

Class Coercions : Type := {
  to_int : pyval → option Z;
  to_float : pyval → option float;
  to_str : pyval → option string;
  to_bool : pyval → option bool;
  to_datetime : pyval → option datetime
}.

(** The input of a field: read under the alias when the field has one, and
    then, with [populate_by_name], under its own name. *)
Definition lookup (populate_by_name : bool) (items : list (string * pyval))
    (name : string) (alias : option string) : option pyval :=
  match alias with
  | None => dict_get items name
  | Some a =>
      match dict_get items a with
      | Some v => Some v
      | None => if populate_by_name then dict_get items name else None
      end
  end.

(** A field without a default: its absence is an error. *)
Definition required {A : Type} (input : option pyval) (validate : pyval → option A)
  : option A :=
  input ≫= validate.

(** A field with a default: its absence gives the default. *)
Definition with_default {A : Type} (input : option pyval) (default : A)
    (validate : pyval → option A) : option A :=
  match input with
  | None => Some default
  | Some v => validate v
  end.

(** [Optional[T]]: None, or a T. *)
Definition optional {A : Type} (validate : pyval → option A) (v : pyval)
  : option (option A) :=
  match v with
  | PyNone => Some None
  | _ => Some <$> validate v
  end.

(** [list[T]]: a list every item of which is a T. *)
Definition list_of {A : Type} (validate : pyval → option A) (v : pyval)
  : option (list A) :=
  match v with
  | PyList l => mapM validate l
  | _ => None
  end.

(** A model: a dict, whose items give the fields. *)
Definition model {A : Type} (fields : list (string * pyval) → option A) (v : pyval)
  : option A :=
  match v with
  | PyDict items => fields items
  | _ => None
  end.

End pydantic.

(** ** models.py *)

Module models.
Import pydantic.

Module NodeCounts.
Record t : Type := mk { total : Z; active : Z; inactive : Z }.
Definition validate `{Coercions} : pyval → option t :=
  model (λ d,
    total ← required (lookup false d "total" None) to_int;
    active ← required (lookup false d "active" None) to_int;
    inactive ← required (lookup false d "inactive" None) to_int;
    mret (mk total active inactive)).
End NodeCounts.

Module VersionCount.
Record t : Type := mk { version : string; count : Z }.
Definition validate `{Coercions} : pyval → option t :=
  model (λ d,
    version ← required (lookup false d "version" None) to_str;
    count ← required (lookup false d "count" None) to_int;
    mret (mk version count)).
End VersionCount.

Module NetworkMetrics.
Record t : Type := mk {
  total_storage_bytes : Z;
  avg_cpu_percent : float;
  avg_ram_percent : float;
  avg_uptime_seconds : Z;
  timestamp : datetime
}.
Definition validate `{Coercions} : pyval → option t :=
  model (λ d,
    total_storage_bytes ←
      required (lookup true d "total_storage_bytes" (Some "totalStorageBytes")) to_int;
    avg_cpu_percent ←
      required (lookup true d "avg_cpu_percent" (Some "avgCpuPercent")) to_float;
    avg_ram_percent ←
      required (lookup true d "avg_ram_percent" (Some "avgRamPercent")) to_float;
    avg_uptime_seconds ←
      required (lookup true d "avg_uptime_seconds" (Some "avgUptimeSeconds")) to_int;
    timestamp ← required (lookup true d "timestamp" None) to_datetime;
    mret (mk total_storage_bytes avg_cpu_percent avg_ram_percent
            avg_uptime_seconds timestamp)).
End NetworkMetrics.

Module NetworkOverview.
Record t : Type := mk {
  nodes : NodeCounts.t;
  versions : list VersionCount.t;
  metrics : NetworkMetrics.t
}.
Definition validate `{Coercions} : pyval → option t :=
  model (λ d,
    nodes ← required (lookup false d "nodes" None) NodeCounts.validate;
    versions ← required (lookup false d "versions" None) (list_of VersionCount.validate);
    metrics ← required (lookup false d "metrics" None) NetworkMetrics.validate;
    mret (mk nodes versions metrics)).
End NetworkOverview.

Module CpuStats.
Record t : Type := mk {
  avg : float; min : float; max : float; p50 : float; p90 : float; p99 : float
}.
Definition validate `{Coercions} : pyval → option t :=
  model (λ d,
    avg ← required (lookup false d "avg" None) to_float;
    min ← required (lookup false d "min" None) to_float;
    max ← required (lookup false d "max" None) to_float;
    p50 ← required (lookup false d "p50" None) to_float;
    p90 ← required (lookup false d "p90" None) to_float;
    p99 ← required (lookup false d "p99" None) to_float;
    mret (mk avg min max p50 p90 p99)).
End CpuStats.

Module RamStats.
Record t : Type := mk {
  avg_percent : float; min_percent : float; max_percent : float;
  p50 : float; p90 : float; p99 : float
}.
Definition validate `{Coercions} : pyval → option t :=
  model (λ d,
    avg_percent ← required (lookup true d "avg_percent" (Some "avgPercent")) to_float;
    min_percent ← required (lookup true d "min_percent" (Some "minPercent")) to_float;
    max_percent ← required (lookup true d "max_percent" (Some "maxPercent")) to_float;
    p50 ← required (lookup true d "p50" None) to_float;
    p90 ← required (lookup true d "p90" None) to_float;
    p99 ← required (lookup true d "p99" None) to_float;
    mret (mk avg_percent min_percent max_percent p50 p90 p99)).
End RamStats.

Module StorageStats.
Record t : Type := mk { total : Z; avg : Z }.
Definition validate `{Coercions} : pyval → option t :=
  model (λ d,
    total ← required (lookup false d "total" None) to_int;
    avg ← required (lookup false d "avg" None) to_int;
    mret (mk total avg)).
End StorageStats.

Module UptimeStats.
Record t : Type := mk { avg_seconds : Z }.
Definition validate `{Coercions} : pyval → option t :=
  model (λ d,
    avg_seconds ← required (lookup true d "avg_seconds" (Some "avgSeconds")) to_int;
    mret (mk avg_seconds)).
End UptimeStats.

Module NetworkStats.
Record t : Type := mk {
  cpu : CpuStats.t;
  ram : RamStats.t;
  storage : StorageStats.t;
  uptime : UptimeStats.t;
  node_count : Z
}.
Definition validate `{Coercions} : pyval → option t :=
  model (λ d,
    cpu ← required (lookup true d "cpu" None) CpuStats.validate;
    ram ← required (lookup true d "ram" None) RamStats.validate;
    storage ← required (lookup true d "storage" None) StorageStats.validate;
    uptime ← required (lookup true d "uptime" None) UptimeStats.validate;
    node_count ← required (lookup true d "node_count" (Some "nodeCount")) to_int;
    mret (mk cpu ram storage uptime node_count)).
End NetworkStats.

Module Node.
Record t : Type := mk {
  id : Z;
  address : string;
  pubkey : option string;
  version : option string;
  is_active : bool;
  last_seen : option datetime;
  first_seen : datetime
}.
Definition validate `{Coercions} : pyval → option t :=
  model (λ d,
    id ← required (lookup true d "id" None) to_int;
    address ← required (lookup true d "address" None) to_str;
    pubkey ← with_default (lookup true d "pubkey" None) None (optional to_str);
    version ← with_default (lookup true d "version" None) None (optional to_str);
    is_active ← required (lookup true d "is_active" (Some "isActive")) to_bool;
    last_seen ←
      with_default (lookup true d "last_seen" (Some "lastSeen")) None (optional to_datetime);
    first_seen ← required (lookup true d "first_seen" (Some "firstSeen")) to_datetime;
    mret (mk id address pubkey version is_active last_seen first_seen)).
End Node.

Module NodeMetricsData.
Record t : Type := mk {
  cpu_percent : option float;
  ram_used_bytes : Z;
  ram_total_bytes : Z;
  ram_percent : float;
  storage_bytes : Z;
  uptime_seconds : option Z;
  packets_received : option Z;
  packets_sent : option Z;
  timestamp : datetime
}.
Definition validate `{Coercions} : pyval → option t :=
  model (λ d,
    cpu_percent ←
      with_default (lookup true d "cpu_percent" (Some "cpuPercent")) None (optional to_float);
    ram_used_bytes ← required (lookup true d "ram_used_bytes" (Some "ramUsedBytes")) to_int;
    ram_total_bytes ←
      required (lookup true d "ram_total_bytes" (Some "ramTotalBytes")) to_int;
    ram_percent ← required (lookup true d "ram_percent" (Some "ramPercent")) to_float;
    storage_bytes ← required (lookup true d "storage_bytes" (Some "storageBytes")) to_int;
    uptime_seconds ←
      with_default (lookup true d "uptime_seconds" (Some "uptimeSeconds")) None
        (optional to_int);
    packets_received ←
      with_default (lookup true d "packets_received" (Some "packetsReceived")) None
        (optional to_int);
    packets_sent ←
      with_default (lookup true d "packets_sent" (Some "packetsSent")) None
        (optional to_int);
    timestamp ← required (lookup true d "timestamp" None) to_datetime;
    mret (mk cpu_percent ram_used_bytes ram_total_bytes ram_percent storage_bytes
            uptime_seconds packets_received packets_sent timestamp)).
End NodeMetricsData.

Module NodeDetails.
Record t : Type := mk {
  id : Z;
  address : string;
  pubkey : option string;
  version : option string;
  is_active : bool;
  last_seen : option datetime;
  first_seen : datetime;
  metrics : option NodeMetricsData.t;
  peer_count : Z;
  metrics_count : Z
}.
Definition validate `{Coercions} : pyval → option t :=
  model (λ d,
    id ← required (lookup true d "id" None) to_int;
    address ← required (lookup true d "address" None) to_str;
    pubkey ← with_default (lookup true d "pubkey" None) None (optional to_str);
    version ← with_default (lookup true d "version" None) None (optional to_str);
    is_active ← required (lookup true d "is_active" (Some "isActive")) to_bool;
    last_seen ←
      with_default (lookup true d "last_seen" (Some "lastSeen")) None (optional to_datetime);
    first_seen ← required (lookup true d "first_seen" (Some "firstSeen")) to_datetime;
    metrics ←
      with_default (lookup true d "metrics" None) None (optional NodeMetricsData.validate);
    peer_count ← required (lookup true d "peer_count" (Some "peerCount")) to_int;
    metrics_count ← required (lookup true d "metrics_count" (Some "metricsCount")) to_int;
    mret (mk id address pubkey version is_active last_seen first_seen metrics
            peer_count metrics_count)).
End NodeDetails.

Module MetricPoint.
Record t : Type := mk {
  time : datetime;
  cpu_percent : float;
  ram_percent : float;
  storage_bytes : Z;
  uptime_seconds : Z
}.
Definition validate `{Coercions} : pyval → option t :=
  model (λ d,
    time ← required (lookup true d "time" None) to_datetime;
    cpu_percent ← required (lookup true d "cpu_percent" (Some "cpuPercent")) to_float;
    ram_percent ← required (lookup true d "ram_percent" (Some "ramPercent")) to_float;
    storage_bytes ← required (lookup true d "storage_bytes" (Some "storageBytes")) to_int;
    uptime_seconds ← required (lookup true d "uptime_seconds" (Some "uptimeSeconds")) to_int;
    mret (mk time cpu_percent ram_percent storage_bytes uptime_seconds)).
End MetricPoint.

Module NodeMetrics.
Record t : Type := mk {
  node_id : Z;
  range : string;
  aggregation : string;
  data : list MetricPoint.t
}.
Definition validate `{Coercions} : pyval → option t :=
  model (λ d,
    node_id ← required (lookup true d "node_id" (Some "nodeId")) to_int;
    range ← required (lookup true d "range" None) to_str;
    aggregation ← required (lookup true d "aggregation" None) to_str;
    data ← required (lookup true d "data" None) (list_of MetricPoint.validate);
    mret (mk node_id range aggregation data)).
End NodeMetrics.

Module NodesList.
Record t : Type := mk {
  nodes : list Node.t;
  total : Z;
  limit : Z;
  offset : Z;
  has_more : bool
}.
Definition validate `{Coercions} : pyval → option t :=
  model (λ d,
    nodes ← required (lookup true d "nodes" None) (list_of Node.validate);
    total ← required (lookup true d "total" None) to_int;
    limit ← required (lookup true d "limit" None) to_int;
    offset ← required (lookup true d "offset" None) to_int;
    has_more ← required (lookup true d "has_more" (Some "hasMore")) to_bool;
    mret (mk nodes total limit offset has_more)).
End NodesList.

Module LeaderboardMetrics.
Record t : Type := mk {
  uptime_seconds : Z;
  cpu_percent : float;
  ram_percent : float;
  storage_bytes : Z
}.
Definition validate `{Coercions} : pyval → option t :=
  model (λ d,
    uptime_seconds ← required (lookup true d "uptime_seconds" (Some "uptimeSeconds")) to_int;
    cpu_percent ← required (lookup true d "cpu_percent" (Some "cpuPercent")) to_float;
    ram_percent ← required (lookup true d "ram_percent" (Some "ramPercent")) to_float;
    storage_bytes ← required (lookup true d "storage_bytes" (Some "storageBytes")) to_int;
    mret (mk uptime_seconds cpu_percent ram_percent storage_bytes)).
End LeaderboardMetrics.

Module LeaderboardEntry.
Record t : Type := mk {
  rank : Z;
  node_id : Z;
  address : string;
  version : string;
  value : float;
  metrics : LeaderboardMetrics.t
}.
Definition validate `{Coercions} : pyval → option t :=
  model (λ d,
    rank ← required (lookup true d "rank" None) to_int;
    node_id ← required (lookup true d "node_id" (Some "nodeId")) to_int;
    address ← required (lookup true d "address" None) to_str;
    version ← required (lookup true d "version" None) to_str;
    value ← required (lookup true d "value" None) to_float;
    metrics ← required (lookup true d "metrics" None) LeaderboardMetrics.validate;
    mret (mk rank node_id address version value metrics)).
End LeaderboardEntry.

Module Leaderboard.
Record t : Type := mk {
  metric : string;
  period : string;
  order : string;
  rankings : list LeaderboardEntry.t
}.
Definition validate `{Coercions} : pyval → option t :=
  model (λ d,
    metric ← required (lookup false d "metric" None) to_str;
    period ← required (lookup false d "period" None) to_str;
    order ← required (lookup false d "order" None) to_str;
    rankings ← required (lookup false d "rankings" None) (list_of LeaderboardEntry.validate);
    mret (mk metric period order rankings)).
End Leaderboard.

(** The client builds it from three ints, which always validate. *)
Module RateLimitInfo.
Record t : Type := mk { limit : Z; remaining : Z; reset : Z }.
End RateLimitInfo.

End models.

(** ** Default arguments *)

(** A parameter with a default value is an [option]: [None] is the call
    that leaves the argument out. *)
Definition arg {A : Type} (default : A) (given : option A) : A :=
  match given with
  | Some a => a
  | None => default
  end.

(** ** exceptions.py

    An instance of the SDK's exception classes is its class and the
    attributes [PnodePulseError.__init__] sets; [retry_after] exists on a
    RateLimitError only.  [message] and [code] are annotated [str], and hold
    whatever the caller passes. *)

Module exceptions.
Import models.

Inductive cls : Type :=
| PnodePulseError_cls
| RateLimitError_cls
| NotFoundError_cls
| AuthenticationError_cls
| ValidationError_cls
| NetworkError_cls
| TimeoutError_cls.

Record t : Type := mk {
  class : cls;
  message : pyval;
  code : pyval;
  status : option Z;
  rate_limit : option RateLimitInfo.t;
  retry_after : option Z
}.

(** [PnodePulseError.__init__], run for an instance of class [c]. *)
Definition init (c : cls) (message : pyval) (code : option pyval) (status : option Z)
    (rate_limit : option RateLimitInfo.t) : t :=
  mk c message (arg (PyStr "UNKNOWN_ERROR") code) status rate_limit None.

Definition PnodePulseError (message : pyval) (code : option pyval) (status : option Z)
    (rate_limit : option RateLimitInfo.t) : t :=
  init PnodePulseError_cls message code status rate_limit.

Definition RateLimitError (message : pyval) (retry_after : Z)
    (rate_limit : RateLimitInfo.t) : t :=
  let e := init RateLimitError_cls message (Some (PyStr "RATE_LIMIT_EXCEEDED"))
             (Some 429%Z) (Some rate_limit) in
  mk (class e) (exceptions.message e) (code e) (status e) (exceptions.rate_limit e)
     (Some retry_after).

Definition NotFoundError (message : option pyval) : t :=
  init NotFoundError_cls (arg (PyStr "Resource not found") message)
    (Some (PyStr "NOT_FOUND")) (Some 404%Z) None.

Definition AuthenticationError (message : option pyval) : t :=
  init AuthenticationError_cls (arg (PyStr "Authentication failed") message)
    (Some (PyStr "UNAUTHORIZED")) (Some 401%Z) None.

Definition ValidationError (message : pyval) : t :=
  init ValidationError_cls message (Some (PyStr "VALIDATION_ERROR")) (Some 400%Z) None.

Definition NetworkError (message : pyval) : t :=
  init NetworkError_cls message (Some (PyStr "NETWORK_ERROR")) None None.

Definition TimeoutError (message : option pyval) : t :=
  init TimeoutError_cls (arg (PyStr "Request timed out") message)
    (Some (PyStr "TIMEOUT")) None None.

End exceptions.

(** ** Exceptions, results and the requests sent *)

(** Whatever can be raised while a client method runs: an exception of the
    SDK, or one of Python, pydantic or httpx that the SDK lets through. *)
Inductive exn : Type :=
| Pulse (e : exceptions.t)
| ValueError (literal : string)
| JSONDecodeError
| AttributeError (attr : string)
| PydanticValidationError (title : string)
| HttpxError (c : httpx.exc_class) (msg : string)
| OtherException (name : string).

Definition isinstance_TimeoutException (e : exn) : bool :=
  match e with
  | HttpxError c _ => httpx.is_TimeoutException c
  | _ => false
  end.

Definition isinstance_RequestError (e : exn) : bool :=
  match e with
  | HttpxError c _ => httpx.is_RequestError c
  | _ => false
  end.

(** [str(e)]: for an exception of httpx, the one case the client asks
    for, its message. *)
Definition str_of_exn (e : exn) : string :=
  match e with
  | HttpxError _ msg => msg
  | ValueError literal => literal
  | AttributeError attr => attr
  | PydanticValidationError title => title
  | OtherException name => name
  | JSONDecodeError | Pulse _ => ""
  end.

Inductive result (A : Type) : Type :=
| Ok (a : A)
| Raise (e : exn).
Arguments Ok {A} a.
Arguments Raise {A} e.

#[global] Instance result_ret : MRet result := λ A a, Ok a.
#[global] Instance result_bind : MBind result := λ A B k m,
  match m with
  | Ok a => k a
  | Raise e => Raise e
  end.

(** A computation of the client: the requests it handed to the transport,
    in order, and how it ended. *)
Record io (A : Type) : Type := IO {
  sent : list httpx.Request.t;
  outcome : result A
}.
Arguments IO {A} sent outcome.
Arguments sent {A} i.
Arguments outcome {A} i.

#[global] Instance io_ret : MRet io := λ A a, IO [] (Ok a).
#[global] Instance io_bind : MBind io := λ A B k m,
  match outcome m with
  | Ok a => IO (sent m ++ sent (k a)) (outcome (k a))
  | Raise e => IO (sent m) (Raise e)
  end.

(** A computation that sends nothing. *)
Definition pure {A : Type} (r : result A) : io A := IO [] r.

(** [try: m  except Exception as e: handler e]. *)
Definition try_except {A : Type} (m : io A) (handler : exn → io A) : io A :=
  match outcome m with
  | Ok a => m
  | Raise e => IO (sent m ++ sent (handler e)) (outcome (handler e))
  end.

(** What the transport does with a request: it responds, or raises. *)
Inductive reply : Type :=
| Responds (r : httpx.Response.t)
| Fails (e : exn).

(** [self._http]: the transport handle, seen as a mocked transport is. *)
Definition transport : Type := httpx.Request.t → reply.

(** [self._http.request(method=..., url=..., params=..., headers=...)]. *)
Definition http_request (http : transport) (req : httpx.Request.t) : io httpx.Response.t :=
  IO [req] (match http req with
            | Responds r => Ok r
            | Fails e => Raise e
            end).

(** [int(x)] for [x] a str or an int. *)
Definition int_ (x : string + Z) : result Z :=
  match x with
  | inl s =>
      match int_of_str s with
      | Some n => Ok n
      | None => Raise (ValueError s)
      end
  | inr n => Ok n
  end.

(** [response.json()]. *)
Definition response_json (r : httpx.Response.t) : result pyval :=
  match httpx.Response.json r with
  | Some v => Ok v
  | None => Raise JSONDecodeError
  end.

(** [obj.get(key, default)]: a dict method, an AttributeError elsewhere. *)
Definition get_ (obj : pyval) (key : string) (default : pyval) : result pyval :=
  match obj with
  | PyDict items =>
      match dict_get items key with
      | Some v => Ok v
      | None => Ok default
      end
  | _ => Raise (AttributeError "get")
  end.

(** [Model.model_validate(data)] for the model of this [title]. *)
Definition model_validate {A : Type} (title : string) (validate : pyval → option A)
    (data : pyval) : result A :=
  match validate data with
  | Some record => Ok record
  | None => Raise (PydanticValidationError title)
  end.

(** ** client.py *)

Import models.

Definition DEFAULT_BASE_URL : string := "https://pulse.rectorspace.com".
Definition DEFAULT_TIMEOUT : float := 30%float.

(** [a or b] on two strs. *)
Definition str_or (a b : string) : string :=
  if String.eqb a "" then b else a.

Module BaseClient.

Record t : Type := mk {
  api_key : option string;
  base_url : string;
  timeout : float
}.

Definition __init__ (api_key : option string) (base_url : option string)
    (timeout : option float) : t :=
  mk api_key (rstrip_slash (arg DEFAULT_BASE_URL base_url)) (arg DEFAULT_TIMEOUT timeout).

Definition _get_headers (self : t) : gmap string string :=
  let headers : gmap string string := {[ "Content-Type" := "application/json" ]} in
  match api_key self with
  | Some key => if truthy (Some key) then <[ "X-API-Key" := key ]> headers else headers
  | None => headers
  end.

Definition _parse_rate_limit (self : t) (headers : httpx.Headers.t)
  : result RateLimitInfo.t :=
  limit ← int_ (httpx.Headers.get headers "X-RateLimit-Limit" 0%Z);
  remaining ← int_ (httpx.Headers.get headers "X-RateLimit-Remaining" 0%Z);
  reset ← int_ (httpx.Headers.get headers "X-RateLimit-Reset" 0%Z);
  mret (RateLimitInfo.mk limit remaining reset).

(** The body of the [try] of [_handle_error_response]. *)
Definition error_of_body (response : httpx.Response.t) : result (pyval * pyval) :=
  data ← response_json response;
  error ← get_ data "error" (PyDict []);
  message ← get_ error "message" (PyStr "Unknown error");
  code ← get_ error "code" (PyStr "UNKNOWN_ERROR");
  mret (message, code).

(** Its [except Exception] branch. *)
Definition error_of_text (response : httpx.Response.t) : pyval * pyval :=
  (PyStr (str_or (httpx.Response.text response) "Unknown error"), PyStr "UNKNOWN_ERROR").

Definition _handle_error_response (self : t) (response : httpx.Response.t)
    (rate_limit : RateLimitInfo.t) : result () :=
  let '(message, code) :=
    match error_of_body response with
    | Ok extracted => extracted
    | Raise _ => error_of_text response
    end in
  if (httpx.Response.status_code response =? 429)%Z then
    retry_after ← int_ (httpx.Headers.get (httpx.Response.headers response) "Retry-After" 60%Z);
    Raise (Pulse (exceptions.RateLimitError message retry_after rate_limit))
  else if (httpx.Response.status_code response =? 404)%Z then
    Raise (Pulse (exceptions.NotFoundError (Some message)))
  else if (httpx.Response.status_code response =? 401)%Z then
    Raise (Pulse (exceptions.AuthenticationError (Some message)))
  else
    Raise (Pulse (exceptions.PnodePulseError message (Some code)
                    (Some (httpx.Response.status_code response)) (Some rate_limit))).

End BaseClient.

(** *** The synchronous client

    The three facades hold a reference to the client and nothing else, so a
    facade method takes the client.  The transport handle is given to
    [__init__] here, where the source opens an [httpx.Client]. *)

Module PnodePulse.

Record t : Type := mk {
  base : BaseClient.t;
  _http : transport
}.

Definition __init__ (api_key : option string) (base_url : option string)
    (timeout : option float) (http : transport) : t :=
  mk (BaseClient.__init__ api_key base_url timeout) http.

Definition _request (self : t) (method path : string)
    (params : option (gmap string pyval)) : io pyval :=
  let url := BaseClient.base_url (base self) +:+ path in
  response ←
    try_except
      (http_request (_http self)
         (httpx.Request.mk method url params (BaseClient._get_headers (base self))))
      (λ e,
        if isinstance_TimeoutException e then
          pure (Raise (Pulse (exceptions.TimeoutError None)))
        else if isinstance_RequestError e then
          pure (Raise (Pulse (exceptions.NetworkError (PyStr (str_of_exn e)))))
        else pure (Raise e));
  rate_limit ← pure (BaseClient._parse_rate_limit (base self) (httpx.Response.headers response));
  _ ← (if negb (httpx.Response.is_success response)
       then pure (BaseClient._handle_error_response (base self) response rate_limit)
       else mret ());
  pure (response_json response).

End PnodePulse.

Module NetworkResource.

Definition get_overview `{pydantic.Coercions} (_client : PnodePulse.t)
  : io NetworkOverview.t :=
  data ← PnodePulse._request _client "GET" "/api/v1/network" None;
  pure (model_validate "NetworkOverview" NetworkOverview.validate data).

Definition get_stats `{pydantic.Coercions} (_client : PnodePulse.t) : io NetworkStats.t :=
  data ← PnodePulse._request _client "GET" "/api/v1/network/stats" None;
  pure (model_validate "NetworkStats" NetworkStats.validate data).

End NetworkResource.

(** [str(n)], which an f-string applies to an int: its decimal digits, and
    a ValueError for an int of more than [int_max_str_digits] digits. *)
Definition str_of_int (n : Z) : result string :=
  if (Z.abs n <? 10 ^ 4300)%Z then Ok (pretty n)
  else Raise (ValueError "Exceeds the limit for integer string conversion").

(** [f"{id_or_address}"] for an int or a str. *)
Definition format_id (id_or_address : Z + string) : result string :=
  match id_or_address with
  | inl n => str_of_int n
  | inr s => Ok s
  end.

Module NodesResource.

Definition get `{pydantic.Coercions} (_client : PnodePulse.t) (id_or_address : Z + string)
  : io NodeDetails.t :=
  id ← pure (format_id id_or_address);
  data ← PnodePulse._request _client "GET" ("/api/v1/nodes/" +:+ id) None;
  pure (model_validate "NodeDetails" NodeDetails.validate data).

Definition get_metrics `{pydantic.Coercions} (_client : PnodePulse.t) (node_id : Z)
    (range aggregation : option string) : io NodeMetrics.t :=
  let range := arg "24h" range in
  let aggregation := arg "hourly" aggregation in
  let params : gmap string pyval :=
    <[ "aggregation" := PyStr aggregation ]> {[ "range" := PyStr range ]} in
  id ← pure (str_of_int node_id);
  data ← PnodePulse._request _client "GET"
           ("/api/v1/nodes/" +:+ id +:+ "/metrics") (Some params);
  pure (model_validate "NodeMetrics" NodeMetrics.validate data).

(** The dict [list] builds before it sends the request. *)
Definition list_params (status : string) (version search : option string)
    (limit offset : Z) (order_by order : string) : gmap string pyval :=
  let params : gmap string pyval :=
    <[ "order" := PyStr order ]>
      (<[ "orderBy" := PyStr order_by ]>
         (<[ "offset" := PyInt offset ]>
            (<[ "limit" := PyInt limit ]> {[ "status" := PyStr status ]}))) in
  let params :=
    match version with
    | Some v => if truthy version then <[ "version" := PyStr v ]> params else params
    | None => params
    end in
  match search with
  | Some s => if truthy search then <[ "search" := PyStr s ]> params else params
  | None => params
  end.

Definition list `{pydantic.Coercions} (_client : PnodePulse.t) (status : option string)
    (version search : option string) (limit offset : option Z)
    (order_by order : option string) : io NodesList.t :=
  let params :=
    list_params (arg "all" status) version search (arg 50%Z limit) (arg 0%Z offset)
      (arg "lastSeen" order_by) (arg "desc" order) in
  data ← PnodePulse._request _client "GET" "/api/v1/nodes" (Some params);
  pure (model_validate "NodesList" NodesList.validate data).

End NodesResource.

Module LeaderboardResource.

Definition get `{pydantic.Coercions} (_client : PnodePulse.t) (metric order : option string)
    (limit : option Z) (period : option string) : io Leaderboard.t :=
  let metric := arg "uptime" metric in
  let order := arg "top" order in
  let limit := arg 10%Z limit in
  let period := arg "7d" period in
  let params : gmap string pyval :=
    <[ "period" := PyStr period ]>
      (<[ "limit" := PyInt limit ]>
         (<[ "order" := PyStr order ]> {[ "metric" := PyStr metric ]})) in
  data ← PnodePulse._request _client "GET" "/api/v1/leaderboard" (Some params);
  pure (model_validate "Leaderboard" Leaderboard.validate data).

Definition top_uptime `{pydantic.Coercions} (_client : PnodePulse.t) (limit : option Z)
  : io Leaderboard.t :=
  let limit := arg 10%Z limit in
  get _client (Some "uptime") (Some "top") (Some limit) None.

Definition top_efficiency `{pydantic.Coercions} (_client : PnodePulse.t) (limit : option Z)
  : io Leaderboard.t :=
  let limit := arg 10%Z limit in
  get _client (Some "cpu") (Some "top") (Some limit) None.

Definition top_storage `{pydantic.Coercions} (_client : PnodePulse.t) (limit : option Z)
  : io Leaderboard.t :=
  let limit := arg 10%Z limit in
  get _client (Some "storage") (Some "top") (Some limit) None.

End LeaderboardResource.

(** *** The asynchronous client

    A coroutine is the computation it runs when awaited: with a transport
    whose reply to each request is fixed, suspension changes nothing that a
    caller can observe, and [await] hands over the result. *)

Definition await {A : Type} (coroutine : io A) : io A := coroutine.

Module AsyncPnodePulse.

Record t : Type := mk {
  base : BaseClient.t;
  _http : transport
}.

Definition __init__ (api_key : option string) (base_url : option string)
    (timeout : option float) (http : transport) : t :=
  mk (BaseClient.__init__ api_key base_url timeout) http.

Definition _request (self : t) (method path : string)
    (params : option (gmap string pyval)) : io pyval :=
  let url := BaseClient.base_url (base self) +:+ path in
  response ←
    try_except
      (await (http_request (_http self)
                (httpx.Request.mk method url params (BaseClient._get_headers (base self)))))
      (λ e,
        if isinstance_TimeoutException e then
          pure (Raise (Pulse (exceptions.TimeoutError None)))
        else if isinstance_RequestError e then
          pure (Raise (Pulse (exceptions.NetworkError (PyStr (str_of_exn e)))))
        else pure (Raise e));
  rate_limit ← pure (BaseClient._parse_rate_limit (base self) (httpx.Response.headers response));
  _ ← (if negb (httpx.Response.is_success response)
       then pure (BaseClient._handle_error_response (base self) response rate_limit)
       else mret ());
  pure (response_json response).

End AsyncPnodePulse.

Module AsyncNetworkResource.

Definition get_overview `{pydantic.Coercions} (_client : AsyncPnodePulse.t)
  : io NetworkOverview.t :=
  data ← await (AsyncPnodePulse._request _client "GET" "/api/v1/network" None);
  pure (model_validate "NetworkOverview" NetworkOverview.validate data).

Definition get_stats `{pydantic.Coercions} (_client : AsyncPnodePulse.t)
  : io NetworkStats.t :=
  data ← await (AsyncPnodePulse._request _client "GET" "/api/v1/network/stats" None);
  pure (model_validate "NetworkStats" NetworkStats.validate data).

End AsyncNetworkResource.

Module AsyncNodesResource.

Definition get `{pydantic.Coercions} (_client : AsyncPnodePulse.t)
    (id_or_address : Z + string) : io NodeDetails.t :=
  id ← pure (format_id id_or_address);
  data ← await (AsyncPnodePulse._request _client "GET" ("/api/v1/nodes/" +:+ id) None);
  pure (model_validate "NodeDetails" NodeDetails.validate data).

Definition get_metrics `{pydantic.Coercions} (_client : AsyncPnodePulse.t) (node_id : Z)
    (range aggregation : option string) : io NodeMetrics.t :=
  let range := arg "24h" range in
  let aggregation := arg "hourly" aggregation in
  let params : gmap string pyval :=
    <[ "aggregation" := PyStr aggregation ]> {[ "range" := PyStr range ]} in
  id ← pure (str_of_int node_id);
  data ← await (AsyncPnodePulse._request _client "GET"
                  ("/api/v1/nodes/" +:+ id +:+ "/metrics") (Some params));
  pure (model_validate "NodeMetrics" NodeMetrics.validate data).

Definition list_params (status : string) (version search : option string)
    (limit offset : Z) (order_by order : string) : gmap string pyval :=
  let params : gmap string pyval :=
    <[ "order" := PyStr order ]>
      (<[ "orderBy" := PyStr order_by ]>
         (<[ "offset" := PyInt offset ]>
            (<[ "limit" := PyInt limit ]> {[ "status" := PyStr status ]}))) in
  let params :=
    match version with
    | Some v => if truthy version then <[ "version" := PyStr v ]> params else params
    | None => params
    end in
  match search with
  | Some s => if truthy search then <[ "search" := PyStr s ]> params else params
  | None => params
  end.

Definition list `{pydantic.Coercions} (_client : AsyncPnodePulse.t) (status : option string)
    (version search : option string) (limit offset : option Z)
    (order_by order : option string) : io NodesList.t :=
  let params :=
    list_params (arg "all" status) version search (arg 50%Z limit) (arg 0%Z offset)
      (arg "lastSeen" order_by) (arg "desc" order) in
  data ← await (AsyncPnodePulse._request _client "GET" "/api/v1/nodes" (Some params));
  pure (model_validate "NodesList" NodesList.validate data).

End AsyncNodesResource.

Module AsyncLeaderboardResource.

Definition get `{pydantic.Coercions} (_client : AsyncPnodePulse.t)
    (metric order : option string) (limit : option Z) (period : option string)
  : io Leaderboard.t :=
  let metric := arg "uptime" metric in
  let order := arg "top" order in
  let limit := arg 10%Z limit in
  let period := arg "7d" period in
  let params : gmap string pyval :=
    <[ "period" := PyStr period ]>
      (<[ "limit" := PyInt limit ]>
         (<[ "order" := PyStr order ]> {[ "metric" := PyStr metric ]})) in
  data ← await (AsyncPnodePulse._request _client "GET" "/api/v1/leaderboard" (Some params));
  pure (model_validate "Leaderboard" Leaderboard.validate data).

Definition top_uptime `{pydantic.Coercions} (_client : AsyncPnodePulse.t)
    (limit : option Z) : io Leaderboard.t :=
  let limit := arg 10%Z limit in
  await (get _client (Some "uptime") (Some "top") (Some limit) None).

Definition top_efficiency `{pydantic.Coercions} (_client : AsyncPnodePulse.t)
    (limit : option Z) : io Leaderboard.t :=
  let limit := arg 10%Z limit in
  await (get _client (Some "cpu") (Some "top") (Some limit) None).

Definition top_storage `{pydantic.Coercions} (_client : AsyncPnodePulse.t)
    (limit : option Z) : io Leaderboard.t :=
  let limit := arg 10%Z limit in
  await (get _client (Some "storage") (Some "top") (Some limit) None).

End AsyncLeaderboardResource.

(** ** Observations and sample data *)

(** The query parameters of the requests a computation sent. *)
Definition params_sent {A : Type} (m : io A) : list (option (gmap string pyval)) :=
  httpx.Request.params <$> sent m.

(** A transport that answers every request with the same reply. *)
Definition always (r : reply) : transport := λ _, r.

(** Coercions that take a value only when it already has the type of the
    field: every mode of pydantic accepts at least these.  Timestamps arrive
    as text and are left to the library, so none is accepted here. *)
Definition exact_coercions : pydantic.Coercions := {|
  pydantic.to_int v := match v with PyInt n => Some n | _ => None end;
  pydantic.to_float v := match v with PyFloat x => Some x | _ => None end;
  pydantic.to_str v := match v with PyStr s => Some s | _ => None end;
  pydantic.to_bool v := match v with PyBool b => Some b | _ => None end;
  pydantic.to_datetime v := None
|}.

(** The client of the examples: no API key, the default base URL. *)
Definition sample_client (http : transport) : PnodePulse.t :=
  PnodePulse.__init__ None None None http.

Definition sample_async_client (http : transport) : AsyncPnodePulse.t :=
  AsyncPnodePulse.__init__ None None None http.

Definition rate_headers : httpx.Headers.t :=
  [("X-RateLimit-Limit", "30"); ("X-RateLimit-Remaining", "29");
   ("X-RateLimit-Reset", "1700000000")].

(** The double quote, and a quoted word, for writing JSON text. *)
Definition dquote : string := String "034"%char EmptyString.
Definition quoted (s : string) : string := dquote +:+ s +:+ dquote.

Definition is_dict (v : pyval) : bool :=
  match v with
  | PyDict _ => true
  | _ => false
  end.

(** An integer header as the specification words it: [n] is the default
    when the header is missing, and the integer the header holds when it is
    present. *)
Definition header_reads (h : httpx.Headers.t) (key : string) (default n : Z) : Prop :=
  match httpx.Headers.getitem h key with
  | None => n = default
  | Some v => int_of_str v = Some n
  end.

(** A header that is present and holds no integer literal. *)
Definition header_malformed (h : httpx.Headers.t) (key : string) : Prop :=
  ∃ v, httpx.Headers.getitem h key = Some v ∧ int_of_str v = None.

(** How [_request] ends once the transport has handed over a response. *)
Definition after_response (self : BaseClient.t) (response : httpx.Response.t)
  : result pyval :=
  rate_limit ← BaseClient._parse_rate_limit self (httpx.Response.headers response);
  _ ← (if negb (httpx.Response.is_success response)
       then BaseClient._handle_error_response self response rate_limit
       else mret ());
  response_json response.

(** How [_request] ends when the transport raises [e]. *)
Definition after_failure (e : exn) : exn :=
  if isinstance_TimeoutException e then
    Pulse (exceptions.TimeoutError None)
  else if isinstance_RequestError e then
    Pulse (exceptions.NetworkError (PyStr (str_of_exn e)))
  else e.

(** The request [_request] builds. *)
Definition request_of (self : BaseClient.t) (method path : string)
    (params : option (gmap string pyval)) : httpx.Request.t :=
  httpx.Request.mk method (BaseClient.base_url self +:+ path) params
    (BaseClient._get_headers self).

(** The try block of [_handle_error_response] ended in its [except] branch. *)
Definition text_fallback (response : httpx.Response.t) : bool :=
  match BaseClient.error_of_body response with
  | Ok _ => false
  | Raise _ => true
  end.

(** [found], or the default of [.get]. *)
Definition or_default (default : pyval) (found : option pyval) : pyval :=
  match found with
  | Some v => v
  | None => default
  end.

(** The message and the code [_handle_error_response] works with. *)
Definition extracted (response : httpx.Response.t) : pyval * pyval :=
  match BaseClient.error_of_body response with
  | Ok found => found
  | Raise _ => BaseClient.error_of_text response
  end.

(** Sample responses. *)

(** A 200 whose body is a NodesList without its [total]. *)
Definition nodes_list_without_total : httpx.Response.t :=
  httpx.Response.mk 200 rate_headers
    ("{" +:+ quoted "nodes" +:+ ": [], " +:+ quoted "limit" +:+ ": 50, "
         +:+ quoted "offset" +:+ ": 0, " +:+ quoted "hasMore" +:+ ": false}")
    (Some (PyDict [("nodes", PyList []); ("limit", PyInt 50); ("offset", PyInt 0);
                   ("hasMore", PyBool false)])).

(** A 200 whose body is an empty page of nodes. *)
Definition nodes_list_empty_page : httpx.Response.t :=
  httpx.Response.mk 200 rate_headers
    ("{" +:+ quoted "nodes" +:+ ": [], " +:+ quoted "total" +:+ ": 0, "
         +:+ quoted "limit" +:+ ": 50, " +:+ quoted "offset" +:+ ": 0, "
         +:+ quoted "hasMore" +:+ ": false}")
    (Some (PyDict [("nodes", PyList []); ("total", PyInt 0); ("limit", PyInt 50);
                   ("offset", PyInt 0); ("hasMore", PyBool false)])).

(** A 200 whose body is the empty object. *)
Definition empty_object_200 : httpx.Response.t :=
  httpx.Response.mk 200 rate_headers "{}" (Some (PyDict [])).

(** A 500 with the error body of the wire contract. *)
Definition server_error_500 : httpx.Response.t :=
  httpx.Response.mk 500 rate_headers
    ("{" +:+ quoted "error" +:+ ": {" +:+ quoted "message" +:+ ": " +:+ quoted "database down"
         +:+ ", " +:+ quoted "code" +:+ ": " +:+ quoted "INTERNAL" +:+ "}}")
    (Some (PyDict [("error", PyDict [("message", PyStr "database down");
                                     ("code", PyStr "INTERNAL")])])).

(** A 502 from a proxy: an HTML page, no JSON. *)
Definition bad_gateway_502 : httpx.Response.t :=
  httpx.Response.mk 502 [] "<html>Bad Gateway</html>" None.

(** A 500 whose [error] member is a string, not an object. *)
Definition string_error_500 : httpx.Response.t :=
  httpx.Response.mk 500 rate_headers
    ("{" +:+ quoted "error" +:+ ": " +:+ quoted "boom" +:+ "}")
    (Some (PyDict [("error", PyStr "boom")])).

(** A 404 whose body is the empty object. *)
Definition empty_object_404 : httpx.Response.t :=
  httpx.Response.mk 404 rate_headers "{}" (Some (PyDict [])).

(** A 401 with an error body. *)
Definition unauthorized_401 : httpx.Response.t :=
  httpx.Response.mk 401 rate_headers
    ("{" +:+ quoted "error" +:+ ": {" +:+ quoted "message" +:+ ": " +:+ quoted "bad key"
         +:+ ", " +:+ quoted "code" +:+ ": " +:+ quoted "KEY_REVOKED" +:+ "}}")
    (Some (PyDict [("error", PyDict [("message", PyStr "bad key");
                                     ("code", PyStr "KEY_REVOKED")])])).

(** A 429 that tells how many seconds to wait. *)
Definition too_many_429 : httpx.Response.t :=
  httpx.Response.mk 429 (("Retry-After", "17") :: rate_headers) "{}" (Some (PyDict [])).

(** A 429 whose Retry-After is a date, the other form HTTP allows. *)
Definition too_many_429_date : httpx.Response.t :=
  httpx.Response.mk 429 (("Retry-After", "Wed, 21 Oct 2026 07:28:00 GMT") :: rate_headers)
    "{}" (Some (PyDict [])).

Definition sample_rate_limit : RateLimitInfo.t := RateLimitInfo.mk 30 29 1700000000.

(** ** Further observations *)

(** The characters an [int()] literal may hold: blanks, a sign, digits and
    underscores. *)
Definition is_int_char (a : ascii) : bool :=
  is_space a || bool_decide (is_Some (digit_value a)) || is_underscore a
  || Ascii.eqb a "+" || Ascii.eqb a "-".

(** The last character of a text. *)
Fixpoint last_char (s : string) : option ascii :=
  match s with
  | EmptyString => None
  | String a EmptyString => Some a
  | String _ rest => last_char rest
  end.

(** A run of [n] slashes. *)
Fixpoint slashes (n : nat) : string :=
  match n with
  | O => ""
  | S k => String "/" (slashes k)
  end.

(** [str(n)] is defined: [n] has at most [int_max_str_digits] digits. *)
Definition str_of_int_defined (n : Z) : Prop := (Z.abs n < 10 ^ 4300)%Z.

(** What [f"{id_or_address}"] prints when it is defined. *)
Definition id_text (id_or_address : Z + string) : string :=
  match id_or_address with
  | inl n => pretty n
  | inr s => s
  end.

(** [f"{id_or_address}"] is defined: an address always prints. *)
Definition id_defined (id_or_address : Z + string) : Prop :=
  match id_or_address with
  | inl n => str_of_int_defined n
  | inr _ => True
  end.

(** The first instant of Unix time, in UTC. *)
Definition epoch : pydantic.datetime :=
  pydantic.mk_datetime 1970 1 1 0 0 0 0 (Some 0%Z).

(** [exact_coercions], and the timestamp 0 read as seconds of Unix time:
    still no more than pydantic accepts. *)
Definition epoch_coercions : pydantic.Coercions := {|
  pydantic.to_int v := match v with PyInt n => Some n | _ => None end;
  pydantic.to_float v := match v with PyFloat x => Some x | _ => None end;
  pydantic.to_str v := match v with PyStr s => Some s | _ => None end;
  pydantic.to_bool v := match v with PyBool b => Some b | _ => None end;
  pydantic.to_datetime v := match v with PyInt 0 => Some epoch | _ => None end
|}.

(** A node as the wire has it, without the optional members. *)
Definition bare_node : pyval :=
  PyDict [("id", PyInt 7); ("address", PyStr "10.0.0.7:9001"); ("isActive", PyBool true);
          ("firstSeen", PyInt 0)].

(** A 200 whose body is a page with that node. *)
Definition nodes_list_one_node : httpx.Response.t :=
  httpx.Response.mk 200 rate_headers ""
    (Some (PyDict [("nodes", PyList [bare_node]); ("total", PyInt 1); ("limit", PyInt 50);
                   ("offset", PyInt 0); ("hasMore", PyBool false)])).

(** A 200 that carries the same rate-limit header twice. *)
Definition repeated_limit_200 : httpx.Response.t :=
  httpx.Response.mk 200 (("x-ratelimit-limit", "30") :: rate_headers) "{}" (Some (PyDict [])).

(** A 404 whose rate-limit header is not a number. *)
Definition not_found_bad_header : httpx.Response.t :=
  httpx.Response.mk 404 [("X-RateLimit-Limit", "unlimited")] "{}" (Some (PyDict [])).

(** A 200 whose body is a page of HTML. *)
Definition html_200 : httpx.Response.t :=
  httpx.Response.mk 200 rate_headers "<html>maintenance</html>" None.

(** A member that is absent, or null. *)
Definition absent_or_null (found : option pyval) : Prop :=
  found = None ∨ found = Some PyNone.

(** * Properties *)

(** ** Integer headers *)

Lemma int_header_reads (h : httpx.Headers.t) (key : string) (d n : Z) :
  header_reads h key d n → int_ (httpx.Headers.get h key d) = Ok n.
Proof.
  unfold header_reads, httpx.Headers.get.
  destruct (httpx.Headers.getitem h key) as [v|]; simpl.
  - intros ->. reflexivity.
  - intros ->. reflexivity.
Qed.

Lemma int_header_malformed (h : httpx.Headers.t) (key : string) (d : Z) :
  header_malformed h key → ∃ v, int_ (httpx.Headers.get h key d) = Raise (ValueError v).
Proof.
  intros (v & Hget & Hint). exists v.
  unfold httpx.Headers.get. rewrite Hget. simpl. rewrite Hint. reflexivity.
Qed.

(** A header is read or malformed. *)
Lemma int_header_cases (h : httpx.Headers.t) (key : string) (d : Z) :
  (∃ n, header_reads h key d n) ∨ header_malformed h key.
Proof.
  unfold header_reads, header_malformed.
  destruct (httpx.Headers.getitem h key) as [v|].
  - destruct (int_of_str v) as [n|] eqn:E.
    + left. exists n. reflexivity.
    + right. exists v. split; [reflexivity | exact E].
  - left. exists d. reflexivity.
Qed.

(** [int()] raises nothing but a ValueError. *)
Lemma int_raises_value_error (x : string + Z) (e : exn) :
  int_ x = Raise e → ∃ v, e = ValueError v.
Proof.
  destruct x as [s|n]; simpl; [|discriminate].
  destruct (int_of_str s); [discriminate|].
  intros [= <-]. eauto.
Qed.

Lemma parse_rate_limit_reads (self : BaseClient.t) (h : httpx.Headers.t) (l r s : Z) :
  header_reads h "X-RateLimit-Limit" 0 l →
  header_reads h "X-RateLimit-Remaining" 0 r →
  header_reads h "X-RateLimit-Reset" 0 s →
  BaseClient._parse_rate_limit self h = Ok (RateLimitInfo.mk l r s).
Proof.
  intros Hl Hr Hs. unfold BaseClient._parse_rate_limit.
  rewrite (int_header_reads _ _ _ _ Hl). simpl.
  rewrite (int_header_reads _ _ _ _ Hr). simpl.
  rewrite (int_header_reads _ _ _ _ Hs). reflexivity.
Qed.

(** C2, amended.  [_parse_rate_limit] returns the three header integers,
    0 standing for a missing header, whenever each header that is present
    holds an integer literal; a header that is present and holds anything
    else makes it raise the ValueError of [int()]: it does not degrade to
    zero. *)
Theorem parse_rate_limit_reads_or_raises (self : BaseClient.t) (h : httpx.Headers.t) :
  (∀ l r s : Z,
     header_reads h "X-RateLimit-Limit" 0 l →
     header_reads h "X-RateLimit-Remaining" 0 r →
     header_reads h "X-RateLimit-Reset" 0 s →
     BaseClient._parse_rate_limit self h = Ok (RateLimitInfo.mk l r s))
  ∧ (header_malformed h "X-RateLimit-Limit"
     ∨ header_malformed h "X-RateLimit-Remaining"
     ∨ header_malformed h "X-RateLimit-Reset" →
     ∃ v, BaseClient._parse_rate_limit self h = Raise (ValueError v)).
Proof.
  split.
  - apply parse_rate_limit_reads.
  - intros Hbad. unfold BaseClient._parse_rate_limit.
    destruct (int_header_cases h "X-RateLimit-Limit" 0) as [[l Hl]|Hl].
    2:{ destruct (int_header_malformed _ _ 0%Z Hl) as [v Hv]. exists v.
        rewrite Hv. reflexivity. }
    rewrite (int_header_reads _ _ _ _ Hl). simpl.
    destruct (int_header_cases h "X-RateLimit-Remaining" 0) as [[r Hr]|Hr].
    2:{ destruct (int_header_malformed _ _ 0%Z Hr) as [v Hv]. exists v.
        rewrite Hv. reflexivity. }
    rewrite (int_header_reads _ _ _ _ Hr). simpl.
    destruct Hbad as [Hb|[Hb|Hb]].
    + exfalso. destruct Hb as (v & Hget & Hint). unfold header_reads in Hl.
      rewrite Hget in Hl. congruence.
    + exfalso. destruct Hb as (v & Hget & Hint). unfold header_reads in Hr.
      rewrite Hget in Hr. congruence.
    + destruct (int_header_malformed _ _ 0%Z Hb) as [v Hv]. exists v.
      rewrite Hv. reflexivity.
Qed.

Lemma parse_rate_limit_reads_or_raises_witness :
  BaseClient._parse_rate_limit (BaseClient.__init__ None None None) rate_headers
    = Ok (RateLimitInfo.mk 30 29 1700000000)
  ∧ ∃ v, BaseClient._parse_rate_limit (BaseClient.__init__ None None None)
           [("X-RateLimit-Limit", "30"); ("X-RateLimit-Remaining", "plenty")]
         = Raise (ValueError v).
Proof.
  split.
  - apply (proj1 (parse_rate_limit_reads_or_raises _ rate_headers)); reflexivity.
  - apply (proj2 (parse_rate_limit_reads_or_raises _ _)).
    right. left. exists "plenty". split; reflexivity.
Defined.

(** C2 as stated fails: a rate-limit header that is present and is not an
    integer makes [_parse_rate_limit] raise. *)
Lemma parse_rate_limit_raises_on_malformed_header :
  BaseClient._parse_rate_limit (BaseClient.__init__ None None None)
    [("X-RateLimit-Limit", "unlimited"); ("X-RateLimit-Remaining", "29");
     ("X-RateLimit-Reset", "1700000000")]
  = Raise (ValueError "unlimited").
Proof. reflexivity. Qed.

(** ** The request primitive *)

Lemma bind_pure {A B : Type} (m : io A) (f : A → result B) :
  (m ≫= λ a, pure (f a)) = IO (sent m) (outcome m ≫= f).
Proof.
  destruct m as [s [a|e]]; unfold mbind, io_bind, result_bind; simpl;
    [rewrite app_nil_r|]; reflexivity.
Qed.

Lemma pure_ok_bind {A B : Type} (a : A) (k : A → io B) : (pure (Ok a) ≫= k) = k a.
Proof. unfold mbind, io_bind, pure. cbn. destruct (k a). reflexivity. Qed.

Lemma pure_raise_bind {A B : Type} (e : exn) (k : A → io B) :
  (pure (Raise e) ≫= k) = IO [] (Raise e).
Proof. reflexivity. Qed.

Lemma str_of_int_ok (n : Z) : str_of_int_defined n → str_of_int n = Ok (pretty n).
Proof.
  unfold str_of_int, str_of_int_defined. intros Hn.
  apply Z.ltb_lt in Hn. rewrite Hn. reflexivity.
Qed.

Lemma format_id_ok (id_or_address : Z + string) :
  id_defined id_or_address → format_id id_or_address = Ok (id_text id_or_address).
Proof.
  destruct id_or_address as [n|address]; [apply str_of_int_ok | reflexivity].
Qed.

(** [_request] sends one request and ends as the reply to it decides. *)
Lemma request_eq (self : PnodePulse.t) (method path : string)
    (params : option (gmap string pyval)) :
  PnodePulse._request self method path params
  = IO [request_of (PnodePulse.base self) method path params]
       (match PnodePulse._http self (request_of (PnodePulse.base self) method path params) with
        | Responds r => after_response (PnodePulse.base self) r
        | Fails e => Raise (after_failure e)
        end).
Proof.
  unfold PnodePulse._request, http_request, try_except, after_response, after_failure,
    request_of.
  destruct (PnodePulse._http self _) as [r|e]; simpl.
  - unfold mbind, io_bind, result_bind, mret, io_ret, pure; simpl.
    destruct (BaseClient._parse_rate_limit _ _) as [rl|x]; simpl; [|reflexivity].
    destruct (negb (httpx.Response.is_success r)); simpl; [|reflexivity].
    destruct (BaseClient._handle_error_response _ r rl) as [[]|x]; reflexivity.
  - unfold mbind, io_bind; simpl.
    destruct (isinstance_TimeoutException e); [reflexivity|].
    destruct (isinstance_RequestError e); reflexivity.
Qed.

Lemma async_request_eq (self : AsyncPnodePulse.t) (method path : string)
    (params : option (gmap string pyval)) :
  AsyncPnodePulse._request self method path params
  = IO [request_of (AsyncPnodePulse.base self) method path params]
       (match AsyncPnodePulse._http self
                (request_of (AsyncPnodePulse.base self) method path params) with
        | Responds r => after_response (AsyncPnodePulse.base self) r
        | Fails e => Raise (after_failure e)
        end).
Proof.
  unfold AsyncPnodePulse._request, await, http_request, try_except, after_response,
    after_failure, request_of.
  destruct (AsyncPnodePulse._http self _) as [r|e]; simpl.
  - unfold mbind, io_bind, result_bind, mret, io_ret, pure; simpl.
    destruct (BaseClient._parse_rate_limit _ _) as [rl|x]; simpl; [|reflexivity].
    destruct (negb (httpx.Response.is_success r)); simpl; [|reflexivity].
    destruct (BaseClient._handle_error_response _ r rl) as [[]|x]; reflexivity.
  - unfold mbind, io_bind; simpl.
    destruct (isinstance_TimeoutException e); [reflexivity|].
    destruct (isinstance_RequestError e); reflexivity.
Qed.

(** A 2xx response with JSON in it and rate-limit headers that read is
    handed back as its JSON value. *)
Lemma after_response_success (self : BaseClient.t) (response : httpx.Response.t)
    (data : pyval) (l r s : Z) :
  httpx.Response.is_success response = true →
  httpx.Response.json response = Some data →
  header_reads (httpx.Response.headers response) "X-RateLimit-Limit" 0 l →
  header_reads (httpx.Response.headers response) "X-RateLimit-Remaining" 0 r →
  header_reads (httpx.Response.headers response) "X-RateLimit-Reset" 0 s →
  after_response self response = Ok data.
Proof.
  intros Hok Hj Hl Hr Hs. unfold after_response.
  rewrite (parse_rate_limit_reads self _ l r s Hl Hr Hs).
  simpl. rewrite Hok. simpl. unfold response_json. rewrite Hj. reflexivity.
Qed.

(** ** The error body *)

Lemma error_of_body_invalid_json (response : httpx.Response.t) :
  httpx.Response.json response = None →
  BaseClient.error_of_body response = Raise JSONDecodeError.
Proof.
  intros H. unfold BaseClient.error_of_body, response_json. rewrite H. reflexivity.
Qed.

Lemma error_of_body_not_object (response : httpx.Response.t) (v : pyval) :
  httpx.Response.json response = Some v → is_dict v = false →
  BaseClient.error_of_body response = Raise (AttributeError "get").
Proof.
  intros H Hv. unfold BaseClient.error_of_body, response_json. rewrite H.
  destruct v; try discriminate Hv; reflexivity.
Qed.

Lemma error_of_body_no_error (response : httpx.Response.t) (items : list (string * pyval)) :
  httpx.Response.json response = Some (PyDict items) →
  dict_get items "error" = None →
  BaseClient.error_of_body response = Ok (PyStr "Unknown error", PyStr "UNKNOWN_ERROR").
Proof.
  intros H He. unfold BaseClient.error_of_body, response_json. rewrite H.
  simpl. rewrite He. reflexivity.
Qed.

Lemma error_of_body_error_object (response : httpx.Response.t)
    (items err : list (string * pyval)) :
  httpx.Response.json response = Some (PyDict items) →
  dict_get items "error" = Some (PyDict err) →
  BaseClient.error_of_body response
  = Ok (or_default (PyStr "Unknown error") (dict_get err "message"),
        or_default (PyStr "UNKNOWN_ERROR") (dict_get err "code")).
Proof.
  intros H He. unfold BaseClient.error_of_body, response_json. rewrite H.
  simpl. rewrite He. simpl.
  destruct (dict_get err "message"), (dict_get err "code"); reflexivity.
Qed.

Lemma error_of_body_error_not_object (response : httpx.Response.t)
    (items : list (string * pyval)) (e : pyval) :
  httpx.Response.json response = Some (PyDict items) →
  dict_get items "error" = Some e → is_dict e = false →
  BaseClient.error_of_body response = Raise (AttributeError "get").
Proof.
  intros H He Hd. unfold BaseClient.error_of_body, response_json. rewrite H.
  simpl. rewrite He. simpl. destruct e; try discriminate Hd; reflexivity.
Qed.

Lemma handle_error_response_eq (self : BaseClient.t) (response : httpx.Response.t)
    (rate_limit : RateLimitInfo.t) :
  BaseClient._handle_error_response self response rate_limit =
  let status := httpx.Response.status_code response in
  if (status =? 429)%Z then
    retry_after ← int_ (httpx.Headers.get (httpx.Response.headers response) "Retry-After" 60%Z);
    Raise (Pulse (exceptions.RateLimitError (extracted response).1 retry_after rate_limit))
  else if (status =? 404)%Z then
    Raise (Pulse (exceptions.NotFoundError (Some (extracted response).1)))
  else if (status =? 401)%Z then
    Raise (Pulse (exceptions.AuthenticationError (Some (extracted response).1)))
  else
    Raise (Pulse (exceptions.PnodePulseError (extracted response).1
                    (Some (extracted response).2) (Some status) (Some rate_limit))).
Proof.
  unfold BaseClient._handle_error_response, extracted.
  destruct (BaseClient.error_of_body response) as [[m c]|e];
    [|destruct (BaseClient.error_of_text response) as [m c]];
    reflexivity.
Qed.

Lemma handle_error_response_generic (self : BaseClient.t) (response : httpx.Response.t)
    (rate_limit : RateLimitInfo.t) :
  httpx.Response.status_code response ≠ 429%Z →
  httpx.Response.status_code response ≠ 404%Z →
  httpx.Response.status_code response ≠ 401%Z →
  BaseClient._handle_error_response self response rate_limit
  = Raise (Pulse (exceptions.mk exceptions.PnodePulseError_cls
                    (extracted response).1 (extracted response).2
                    (Some (httpx.Response.status_code response)) (Some rate_limit) None)).
Proof.
  intros H1 H2 H3. rewrite handle_error_response_eq. cbv zeta.
  destruct (Z.eqb_spec (httpx.Response.status_code response) 429); [contradiction|].
  destruct (Z.eqb_spec (httpx.Response.status_code response) 404); [contradiction|].
  destruct (Z.eqb_spec (httpx.Response.status_code response) 401); [contradiction|].
  reflexivity.
Qed.

(** [_handle_error_response] never returns. *)
Lemma handle_error_response_raises (self : BaseClient.t) (response : httpx.Response.t)
    (rate_limit : RateLimitInfo.t) :
  ∃ e, BaseClient._handle_error_response self response rate_limit = Raise e.
Proof.
  rewrite handle_error_response_eq. cbv zeta.
  destruct (httpx.Response.status_code response =? 429)%Z.
  - destruct (int_ _) as [n|e]; simpl; eauto.
  - destruct (httpx.Response.status_code response =? 404)%Z; [eauto|].
    destruct (httpx.Response.status_code response =? 401)%Z; eauto.
Qed.

(** C3, amended.  On a 429 [_handle_error_response] raises a RateLimitError
    with code RATE_LIMIT_EXCEEDED, status 429, the RateLimitInfo it was given,
    and [retry_after] the integer of the Retry-After header, 60 when the
    header is absent; when the header is present and holds no integer
    literal, the ValueError of [int()] is raised in its place.  Called by
    [_request], the RateLimitInfo it is given is the one parsed from the
    headers of the response. *)
Theorem rate_limited_retry_after (self : BaseClient.t) (response : httpx.Response.t)
    (rate_limit : RateLimitInfo.t) :
  httpx.Response.status_code response = 429%Z →
  (∀ n : Z,
     header_reads (httpx.Response.headers response) "Retry-After" 60 n →
     ∃ message,
       BaseClient._handle_error_response self response rate_limit
       = Raise (Pulse (exceptions.mk exceptions.RateLimitError_cls message
                         (PyStr "RATE_LIMIT_EXCEEDED") (Some 429%Z) (Some rate_limit)
                         (Some n))))
  ∧ (header_malformed (httpx.Response.headers response) "Retry-After" →
     ∃ v, BaseClient._handle_error_response self response rate_limit
          = Raise (ValueError v))
  ∧ (∀ (client : PnodePulse.t) (method path : string)
       (params : option (gmap string pyval)) (l r s n : Z),
       PnodePulse.base client = self →
       PnodePulse._http client (request_of self method path params) = Responds response →
       header_reads (httpx.Response.headers response) "X-RateLimit-Limit" 0 l →
       header_reads (httpx.Response.headers response) "X-RateLimit-Remaining" 0 r →
       header_reads (httpx.Response.headers response) "X-RateLimit-Reset" 0 s →
       header_reads (httpx.Response.headers response) "Retry-After" 60 n →
       ∃ message,
         outcome (PnodePulse._request client method path params)
         = Raise (Pulse (exceptions.mk exceptions.RateLimitError_cls message
                           (PyStr "RATE_LIMIT_EXCEEDED") (Some 429%Z)
                           (Some (RateLimitInfo.mk l r s)) (Some n)))).
Proof.
  intros Hs.
  assert (Hreads : ∀ rl n,
            header_reads (httpx.Response.headers response) "Retry-After" 60 n →
            BaseClient._handle_error_response self response rl
            = Raise (Pulse (exceptions.mk exceptions.RateLimitError_cls
                              (extracted response).1 (PyStr "RATE_LIMIT_EXCEEDED")
                              (Some 429%Z) (Some rl) (Some n)))).
  { intros rl n Hn. rewrite handle_error_response_eq. cbv zeta. rewrite Hs. simpl.
    rewrite (int_header_reads _ _ _ _ Hn). reflexivity. }
  split; [|split].
  - intros n Hn. exists (extracted response).1. apply Hreads, Hn.
  - intros Hbad. rewrite handle_error_response_eq. cbv zeta. rewrite Hs. simpl.
    destruct (int_header_malformed _ _ 60%Z Hbad) as [v Hv].
    exists v. rewrite Hv. reflexivity.
  - intros client method path params l r s n Hbase Hhttp Hl Hr Hrs Hn.
    exists (extracted response).1.
    rewrite request_eq, Hbase, Hhttp. simpl. unfold after_response.
    rewrite (parse_rate_limit_reads self _ l r s Hl Hr Hrs). simpl.
    unfold httpx.Response.is_success. rewrite Hs. simpl.
    rewrite (Hreads _ n Hn). reflexivity.
Qed.

Lemma rate_limited_retry_after_witness :
  (∃ message,
     BaseClient._handle_error_response (BaseClient.__init__ None None None)
       too_many_429 sample_rate_limit
     = Raise (Pulse (exceptions.mk exceptions.RateLimitError_cls message
                       (PyStr "RATE_LIMIT_EXCEEDED") (Some 429%Z) (Some sample_rate_limit)
                       (Some 17%Z))))
  ∧ (∃ v,
       BaseClient._handle_error_response (BaseClient.__init__ None None None)
         too_many_429_date sample_rate_limit
       = Raise (ValueError v))
  ∧ (∃ message,
       outcome (PnodePulse._request (sample_client (always (Responds too_many_429)))
                  "GET" "/api/v1/network" None)
       = Raise (Pulse (exceptions.mk exceptions.RateLimitError_cls message
                         (PyStr "RATE_LIMIT_EXCEEDED") (Some 429%Z)
                         (Some (RateLimitInfo.mk 30 29 1700000000)) (Some 17%Z)))).
Proof.
  split; [|split].
  - apply (proj1 (rate_limited_retry_after _ too_many_429 _ eq_refl)). reflexivity.
  - apply (proj1 (proj2 (rate_limited_retry_after _ too_many_429_date _ eq_refl))).
    exists "Wed, 21 Oct 2026 07:28:00 GMT". split; reflexivity.
  - apply (proj2 (proj2 (rate_limited_retry_after (BaseClient.__init__ None None None)
                           too_many_429 sample_rate_limit eq_refl))
             (sample_client (always (Responds too_many_429)))); reflexivity.
Defined.

(** C3 as stated fails: a 429 whose Retry-After is an HTTP date raises a
    ValueError, not a RateLimitError. *)
Lemma rate_limited_date_raises_value_error :
  BaseClient._handle_error_response (BaseClient.__init__ None None None)
    too_many_429_date sample_rate_limit
  = Raise (ValueError "Wed, 21 Oct 2026 07:28:00 GMT").
Proof. reflexivity. Qed.

(** C4.  [_handle_error_response] always raises.  For a status other than
    429, 404 and 401 the error is a PnodePulseError with that status and the
    given RateLimitInfo, carrying the [message] and the [code] of the body's
    [error] object as they are when the body is JSON with such an object, and
    the response text, or Unknown error when the text is empty, with the code
    UNKNOWN_ERROR when the body is not JSON. *)
Theorem generic_error_carries_body (self : BaseClient.t) (response : httpx.Response.t)
    (rate_limit : RateLimitInfo.t) :
  let status := httpx.Response.status_code response in
  let raised := BaseClient._handle_error_response self response rate_limit in
  let generic message code :=
    Raise (Pulse (exceptions.mk exceptions.PnodePulseError_cls message code
                    (Some status) (Some rate_limit) None)) in
  (∃ e, raised = Raise e)
  ∧ (status ≠ 429%Z → status ≠ 404%Z → status ≠ 401%Z →
     (∀ items err message code,
        httpx.Response.json response = Some (PyDict items) →
        dict_get items "error" = Some (PyDict err) →
        dict_get err "message" = Some message →
        dict_get err "code" = Some code →
        raised = generic message code)
     ∧ (httpx.Response.json response = None →
        (httpx.Response.text response ≠ "" →
         raised = generic (PyStr (httpx.Response.text response)) (PyStr "UNKNOWN_ERROR"))
        ∧ (httpx.Response.text response = "" →
           raised = generic (PyStr "Unknown error") (PyStr "UNKNOWN_ERROR")))).
Proof.
  cbv zeta. split; [apply handle_error_response_raises|].
  intros H1 H2 H3. rewrite (handle_error_response_generic _ _ _ H1 H2 H3).
  split.
  - intros items err message code Hj He Hm Hc. unfold extracted.
    rewrite (error_of_body_error_object _ _ _ Hj He), Hm, Hc. reflexivity.
  - intros Hj. unfold extracted. rewrite (error_of_body_invalid_json _ Hj).
    unfold BaseClient.error_of_text, str_or. simpl. split.
    + intros Ht. destruct (String.eqb_spec (httpx.Response.text response) "");
        [contradiction | reflexivity].
    + intros ->. reflexivity.
Qed.

Lemma generic_error_carries_body_witness :
  BaseClient._handle_error_response (BaseClient.__init__ None None None)
    server_error_500 sample_rate_limit
  = Raise (Pulse (exceptions.mk exceptions.PnodePulseError_cls (PyStr "database down")
                    (PyStr "INTERNAL") (Some 500%Z) (Some sample_rate_limit) None))
  ∧ BaseClient._handle_error_response (BaseClient.__init__ None None None)
      bad_gateway_502 sample_rate_limit
    = Raise (Pulse (exceptions.mk exceptions.PnodePulseError_cls
                      (PyStr "<html>Bad Gateway</html>") (PyStr "UNKNOWN_ERROR")
                      (Some 502%Z) (Some sample_rate_limit) None)).
Proof.
  split.
  - refine (proj1 (proj2 (generic_error_carries_body _ server_error_500 _) _ _ _)
              _ _ _ _ eq_refl eq_refl eq_refl eq_refl); discriminate.
  - refine (proj1 (proj2 (proj2 (generic_error_carries_body _ bad_gateway_502 _) _ _ _)
                     eq_refl) _); discriminate.
Defined.

(** C5.  On a 404 [_handle_error_response] raises a NotFoundError with code
    NOT_FOUND and status 404, and on a 401 an AuthenticationError with code
    UNAUTHORIZED and status 401, whatever the body holds: the body decides
    the message and nothing else. *)
Theorem not_found_and_unauthorized_fixed (self : BaseClient.t)
    (response : httpx.Response.t) (rate_limit : RateLimitInfo.t) :
  (httpx.Response.status_code response = 404%Z →
   ∃ message,
     BaseClient._handle_error_response self response rate_limit
     = Raise (Pulse (exceptions.mk exceptions.NotFoundError_cls message
                       (PyStr "NOT_FOUND") (Some 404%Z) None None)))
  ∧ (httpx.Response.status_code response = 401%Z →
     ∃ message,
       BaseClient._handle_error_response self response rate_limit
       = Raise (Pulse (exceptions.mk exceptions.AuthenticationError_cls message
                         (PyStr "UNAUTHORIZED") (Some 401%Z) None None))).
Proof.
  rewrite handle_error_response_eq. cbv zeta.
  split; intros ->; simpl; eexists; reflexivity.
Qed.

Lemma not_found_and_unauthorized_fixed_witness :
  (∃ message,
     BaseClient._handle_error_response (BaseClient.__init__ None None None)
       empty_object_404 sample_rate_limit
     = Raise (Pulse (exceptions.mk exceptions.NotFoundError_cls message
                       (PyStr "NOT_FOUND") (Some 404%Z) None None)))
  ∧ (∃ message,
       BaseClient._handle_error_response (BaseClient.__init__ None None None)
         unauthorized_401 sample_rate_limit
       = Raise (Pulse (exceptions.mk exceptions.AuthenticationError_cls message
                         (PyStr "UNAUTHORIZED") (Some 401%Z) None None))).
Proof.
  split.
  - exact (proj1 (not_found_and_unauthorized_fixed _ empty_object_404 _) eq_refl).
  - exact (proj2 (not_found_and_unauthorized_fixed _ unauthorized_401 _) eq_refl).
Defined.

Lemma text_fallback_iff (response : httpx.Response.t) :
  text_fallback response = true
  ↔ httpx.Response.json response = None
    ∨ (∃ v, httpx.Response.json response = Some v ∧ is_dict v = false)
    ∨ (∃ items e, httpx.Response.json response = Some (PyDict items)
                  ∧ dict_get items "error" = Some e ∧ is_dict e = false).
Proof.
  unfold text_fallback. split.
  - destruct (httpx.Response.json response) as [v|] eqn:Hj; [|auto].
    destruct (is_dict v) eqn:Hv; [|eauto 6].
    destruct v as [| | | | | |items]; try discriminate Hv.
    destruct (dict_get items "error") as [e|] eqn:He.
    + destruct (is_dict e) eqn:Hd; [|eauto 8].
      destruct e as [| | | | | |err]; try discriminate Hd.
      rewrite (error_of_body_error_object _ _ _ Hj He). discriminate.
    + rewrite (error_of_body_no_error _ _ Hj He). discriminate.
  - intros [Hj|[(v & Hj & Hv)|(items & e & Hj & He & Hd)]].
    + rewrite (error_of_body_invalid_json _ Hj). reflexivity.
    + rewrite (error_of_body_not_object _ _ Hj Hv). reflexivity.
    + rewrite (error_of_body_error_not_object _ _ _ Hj He Hd). reflexivity.
Qed.

Lemma raised_error_message (self : BaseClient.t) (response : httpx.Response.t)
    (rate_limit : RateLimitInfo.t) (e : exceptions.t) :
  BaseClient._handle_error_response self response rate_limit = Raise (Pulse e) →
  exceptions.message e = (extracted response).1.
Proof.
  rewrite handle_error_response_eq. cbv zeta.
  destruct (httpx.Response.status_code response =? 429)%Z.
  - destruct (int_ _) as [n|x] eqn:Hint; simpl.
    + intros [= <-]. reflexivity.
    + destruct (int_raises_value_error _ _ Hint) as [v ->]. discriminate.
  - destruct (httpx.Response.status_code response =? 404)%Z; [intros [= <-]; reflexivity|].
    destruct (httpx.Response.status_code response =? 401)%Z; intros [= <-]; reflexivity.
Qed.

Lemma raised_error_code (self : BaseClient.t) (response : httpx.Response.t)
    (rate_limit : RateLimitInfo.t) (e : exceptions.t) :
  BaseClient._handle_error_response self response rate_limit = Raise (Pulse e) →
  exceptions.code e
  = if (httpx.Response.status_code response =? 429)%Z then PyStr "RATE_LIMIT_EXCEEDED"
    else if (httpx.Response.status_code response =? 404)%Z then PyStr "NOT_FOUND"
    else if (httpx.Response.status_code response =? 401)%Z then PyStr "UNAUTHORIZED"
    else (extracted response).2.
Proof.
  rewrite handle_error_response_eq. cbv zeta.
  destruct (httpx.Response.status_code response =? 429)%Z.
  - destruct (int_ _) as [n|x] eqn:Hint; simpl.
    + intros [= <-]. reflexivity.
    + destruct (int_raises_value_error _ _ Hint) as [v ->]. discriminate.
  - destruct (httpx.Response.status_code response =? 404)%Z; [intros [= <-]; reflexivity|].
    destruct (httpx.Response.status_code response =? 401)%Z; intros [= <-]; reflexivity.
Qed.

Lemma raised_error_code_generic (self : BaseClient.t) (response : httpx.Response.t)
    (rate_limit : RateLimitInfo.t) (e : exceptions.t) :
  BaseClient._handle_error_response self response rate_limit = Raise (Pulse e) →
  httpx.Response.status_code response ≠ 429%Z
  ∧ httpx.Response.status_code response ≠ 404%Z
  ∧ httpx.Response.status_code response ≠ 401%Z →
  exceptions.code e = (extracted response).2.
Proof.
  intros Hr (H1 & H2 & H3). rewrite (raised_error_code _ _ _ _ Hr).
  destruct (Z.eqb_spec (httpx.Response.status_code response) 429); [contradiction|].
  destruct (Z.eqb_spec (httpx.Response.status_code response) 404); [contradiction|].
  destruct (Z.eqb_spec (httpx.Response.status_code response) 401); [contradiction|].
  reflexivity.
Qed.

Lemma extracted_fallback (response : httpx.Response.t) :
  text_fallback response = true → extracted response = BaseClient.error_of_text response.
Proof.
  unfold text_fallback, extracted.
  destruct (BaseClient.error_of_body response); [discriminate | reflexivity].
Qed.

(** C10, amended.  Take an SDK error raised by [_handle_error_response].
    When the body is a JSON object without an [error] member its message is
    Unknown error, and when the [error] member is an object its message is
    that object's [message], or Unknown error if it has none.  When the body
    is not JSON, or is JSON and not an object, or is an object whose [error]
    member is present and not an object, and in these cases only, the
    message is the response text, or Unknown error if the text is empty.  For
    a status other than 429, 404 and 401 the code is the [code] of the
    [error] object when there is one, and UNKNOWN_ERROR in every other case;
    on 429, 404 and 401 the code is the fixed one of the class, whatever the
    body.  Such an error is raised whenever the status is not 429. *)
Theorem error_body_defaults_and_fallback (self : BaseClient.t)
    (response : httpx.Response.t) (rate_limit : RateLimitInfo.t) :
  let status := httpx.Response.status_code response in
  let raised := BaseClient._handle_error_response self response rate_limit in
  let generic := status ≠ 429%Z ∧ status ≠ 404%Z ∧ status ≠ 401%Z in
  let fallback :=
    httpx.Response.json response = None
    ∨ (∃ v, httpx.Response.json response = Some v ∧ is_dict v = false)
    ∨ (∃ items x, httpx.Response.json response = Some (PyDict items)
                  ∧ dict_get items "error" = Some x ∧ is_dict x = false) in
  (∀ e,
     raised = Raise (Pulse e) →
     (∀ items,
        httpx.Response.json response = Some (PyDict items) →
        (dict_get items "error" = None →
         exceptions.message e = PyStr "Unknown error"
         ∧ (generic → exceptions.code e = PyStr "UNKNOWN_ERROR"))
        ∧ (∀ err, dict_get items "error" = Some (PyDict err) →
             (dict_get err "message" = None →
              exceptions.message e = PyStr "Unknown error")
             ∧ (∀ message, dict_get err "message" = Some message →
                  exceptions.message e = message)
             ∧ (dict_get err "code" = None → generic →
                exceptions.code e = PyStr "UNKNOWN_ERROR")
             ∧ (∀ code, dict_get err "code" = Some code → generic →
                  exceptions.code e = code)))
     ∧ (fallback →
        (httpx.Response.text response ≠ "" →
         exceptions.message e = PyStr (httpx.Response.text response))
        ∧ (httpx.Response.text response = "" →
           exceptions.message e = PyStr "Unknown error")
        ∧ (generic → exceptions.code e = PyStr "UNKNOWN_ERROR"))
     ∧ (status = 429%Z → exceptions.code e = PyStr "RATE_LIMIT_EXCEEDED")
     ∧ (status = 404%Z → exceptions.code e = PyStr "NOT_FOUND")
     ∧ (status = 401%Z → exceptions.code e = PyStr "UNAUTHORIZED"))
  ∧ (status ≠ 429%Z → ∃ e, raised = Raise (Pulse e))
  ∧ (text_fallback response = true ↔ fallback).
Proof.
  cbv zeta. split; [|split; [|apply text_fallback_iff]].
  - intros e Hr.
    pose proof (raised_error_message _ _ _ _ Hr) as Hmsg.
    pose proof (raised_error_code_generic _ _ _ _ Hr) as Hcode.
    pose proof (raised_error_code _ _ _ _ Hr) as Hfixed.
    split; [|split; [|split; [|split]]].
    + intros items Hj. split.
      * intros He. unfold extracted in *.
        rewrite (error_of_body_no_error _ _ Hj He) in *. split.
        -- exact Hmsg.
        -- intros Hg. exact (Hcode Hg).
      * intros err He. unfold extracted in *.
        rewrite (error_of_body_error_object _ _ _ Hj He) in *. cbn [fst snd] in *.
        repeat split.
        -- intros Hm. rewrite Hm in Hmsg. exact Hmsg.
        -- intros message Hm. rewrite Hm in Hmsg. exact Hmsg.
        -- intros Hc Hg. rewrite Hc in Hcode. exact (Hcode Hg).
        -- intros code Hc Hg. rewrite Hc in Hcode. exact (Hcode Hg).
    + intros Hfb. apply text_fallback_iff in Hfb.
      rewrite (extracted_fallback _ Hfb) in *.
      unfold BaseClient.error_of_text, str_or in *. cbn [fst snd] in *.
      repeat split.
      * intros Ht. destruct (String.eqb_spec (httpx.Response.text response) "");
          [contradiction | exact Hmsg].
      * intros Ht. rewrite Ht in Hmsg. exact Hmsg.
      * intros Hg. exact (Hcode Hg).
    + intros Hs. rewrite Hs in Hfixed. exact Hfixed.
    + intros Hs. rewrite Hs in Hfixed. exact Hfixed.
    + intros Hs. rewrite Hs in Hfixed. exact Hfixed.
  - intros H429. rewrite handle_error_response_eq. cbv zeta.
    destruct (Z.eqb_spec (httpx.Response.status_code response) 429); [contradiction|].
    destruct (httpx.Response.status_code response =? 404)%Z; [eauto|].
    destruct (httpx.Response.status_code response =? 401)%Z; eauto.
Qed.

Lemma error_body_defaults_and_fallback_witness :
  (∃ e, BaseClient._handle_error_response (BaseClient.__init__ None None None)
          empty_object_404 sample_rate_limit = Raise (Pulse e)
        ∧ exceptions.message e = PyStr "Unknown error"
        ∧ exceptions.code e = PyStr "NOT_FOUND")
  ∧ (∃ e, BaseClient._handle_error_response (BaseClient.__init__ None None None)
            string_error_500 sample_rate_limit = Raise (Pulse e)
          ∧ exceptions.message e = PyStr (httpx.Response.text string_error_500)
          ∧ exceptions.code e = PyStr "UNKNOWN_ERROR").
Proof.
  split.
  - destruct (proj1 (proj2 (error_body_defaults_and_fallback
                              (BaseClient.__init__ None None None)
                              empty_object_404 sample_rate_limit)))
      as [e He]; [discriminate|].
    exists e. split; [exact He|].
    pose proof (proj1 (error_body_defaults_and_fallback _ _ _) e He)
      as (Hbody & _ & _ & H404 & _).
    split; [|exact (H404 eq_refl)].
    exact (proj1 (proj1 (Hbody [] eq_refl) eq_refl)).
  - destruct (proj1 (proj2 (error_body_defaults_and_fallback
                              (BaseClient.__init__ None None None)
                              string_error_500 sample_rate_limit)))
      as [e He]; [discriminate|].
    exists e. split; [exact He|].
    pose proof (proj1 (error_body_defaults_and_fallback _ _ _) e He)
      as (_ & Hfb & _).
    destruct Hfb as (Htext & _ & Hcode).
    { right. right. exists [("error", PyStr "boom")], (PyStr "boom").
      repeat split; reflexivity. }
    split; [apply Htext; discriminate | apply Hcode; repeat split; discriminate].
Defined.

(** C10 as stated fails twice.  A 404 whose body is the empty object raises
    an error whose code is NOT_FOUND, not UNKNOWN_ERROR; and a body that
    parses as an object whose [error] member is a string sends the handler to
    the response text, which becomes the message. *)
Lemma error_body_claim_fails :
  (BaseClient._handle_error_response (BaseClient.__init__ None None None)
     empty_object_404 sample_rate_limit
   = Raise (Pulse (exceptions.mk exceptions.NotFoundError_cls (PyStr "Unknown error")
                     (PyStr "NOT_FOUND") (Some 404%Z) None None)))
  ∧ (httpx.Response.json string_error_500 = Some (PyDict [("error", PyStr "boom")])
     ∧ text_fallback string_error_500 = true
     ∧ BaseClient._handle_error_response (BaseClient.__init__ None None None)
         string_error_500 sample_rate_limit
       = Raise (Pulse (exceptions.mk exceptions.PnodePulseError_cls
                         (PyStr (httpx.Response.text string_error_500))
                         (PyStr "UNKNOWN_ERROR") (Some 500%Z) (Some sample_rate_limit)
                         None))).
Proof. repeat split. Qed.

(** ** Transport failures *)

(** C8.  When the transport raises before there is a response, [_request]
    raises the SDK's TimeoutError, code TIMEOUT, if the exception is one of
    httpx's timeouts, and the SDK's NetworkError, code NETWORK_ERROR, with
    the message of the exception if it is any other of httpx's request
    errors; either carries no status and no RateLimitInfo, so it is neither
    the generic error nor one of the errors chosen by status. *)
Theorem transport_failure_translated (self : PnodePulse.t) (method path : string)
    (params : option (gmap string pyval)) (c : httpx.exc_class) (msg : string) :
  PnodePulse._http self (request_of (PnodePulse.base self) method path params)
    = Fails (HttpxError c msg) →
  let raised := outcome (PnodePulse._request self method path params) in
  (httpx.is_TimeoutException c = true →
   raised = Raise (Pulse (exceptions.mk exceptions.TimeoutError_cls
                            (PyStr "Request timed out") (PyStr "TIMEOUT") None None None)))
  ∧ (httpx.is_TimeoutException c = false → httpx.is_RequestError c = true →
     raised = Raise (Pulse (exceptions.mk exceptions.NetworkError_cls
                              (PyStr msg) (PyStr "NETWORK_ERROR") None None None))).
Proof.
  intros Hf. cbv zeta. rewrite request_eq, Hf. simpl. unfold after_failure. simpl.
  split.
  - intros ->. reflexivity.
  - intros -> ->. reflexivity.
Qed.

Lemma transport_failure_translated_witness :
  outcome (PnodePulse._request
             (sample_client (always (Fails (HttpxError httpx.ConnectTimeout "timed out"))))
             "GET" "/api/v1/network" None)
  = Raise (Pulse (exceptions.mk exceptions.TimeoutError_cls
                    (PyStr "Request timed out") (PyStr "TIMEOUT") None None None))
  ∧ outcome (PnodePulse._request
               (sample_client
                  (always (Fails (HttpxError httpx.ConnectError "Name or service not known"))))
               "GET" "/api/v1/network" None)
    = Raise (Pulse (exceptions.mk exceptions.NetworkError_cls
                      (PyStr "Name or service not known") (PyStr "NETWORK_ERROR")
                      None None None)).
Proof.
  split.
  - exact (proj1 (transport_failure_translated
                    (sample_client (always (Fails (HttpxError httpx.ConnectTimeout "timed out"))))
                    "GET" "/api/v1/network" None _ _ eq_refl) eq_refl).
  - exact (proj2 (transport_failure_translated
                    (sample_client
                       (always (Fails (HttpxError httpx.ConnectError
                                         "Name or service not known"))))
                    "GET" "/api/v1/network" None _ _ eq_refl) eq_refl eq_refl).
Defined.

(** ** The facades *)

(** Each facade method sends the one request of [_request] and validates
    what comes back. *)
Lemma facade_eq {A : Type} (self : PnodePulse.t) (method path : string)
    (params : option (gmap string pyval)) (title : string) (validate : pyval → option A) :
  (PnodePulse._request self method path params
     ≫= λ data, pure (model_validate title validate data))
  = IO [request_of (PnodePulse.base self) method path params]
       (match PnodePulse._http self (request_of (PnodePulse.base self) method path params) with
        | Responds r => after_response (PnodePulse.base self) r
        | Fails e => Raise (after_failure e)
        end ≫= model_validate title validate).
Proof. rewrite bind_pure, request_eq. reflexivity. Qed.

Lemma facade_decode_failure {A : Type} (self : PnodePulse.t) (method path : string)
    (params : option (gmap string pyval)) (title : string) (validate : pyval → option A)
    (response : httpx.Response.t) (data : pyval) :
  (∀ req, PnodePulse._http self req = Responds response) →
  after_response (PnodePulse.base self) response = Ok data →
  validate data = None →
  outcome (PnodePulse._request self method path params
             ≫= λ data, pure (model_validate title validate data))
  = Raise (PydanticValidationError title).
Proof.
  intros Hhttp Hafter Hval. rewrite facade_eq, Hhttp, Hafter. simpl.
  unfold mbind, result_bind, model_validate. rewrite Hval. reflexivity.
Qed.

(** Whatever the library accepts for a scalar, a NodesList without its
    [total] does not validate. *)
Lemma missing_total_never_validates `{pydantic.Coercions} :
  NodesList.validate
    (PyDict [("nodes", PyList []); ("limit", PyInt 50); ("offset", PyInt 0);
             ("hasMore", PyBool false)])
  = None.
Proof. reflexivity. Qed.

(** C1, amended.  When the transport answers with a 2xx response whose
    rate-limit headers read and whose JSON body does not validate against the
    model of the method, each resource method raises the ValidationError of
    pydantic, which is not an exception of the SDK and carries neither its
    VALIDATION_ERROR code nor a status; no default stands in for the record.
    [Nodes.get] and [Nodes.get_metrics] come that far for an id that the
    f-string of the path prints, one of at most 4300 digits. *)
Theorem decode_failure_raises_pydantic_error `{pydantic.Coercions} (self : PnodePulse.t)
    (response : httpx.Response.t) (data : pyval) (l r s : Z) :
  (∀ req, PnodePulse._http self req = Responds response) →
  httpx.Response.is_success response = true →
  httpx.Response.json response = Some data →
  header_reads (httpx.Response.headers response) "X-RateLimit-Limit" 0 l →
  header_reads (httpx.Response.headers response) "X-RateLimit-Remaining" 0 r →
  header_reads (httpx.Response.headers response) "X-RateLimit-Reset" 0 s →
  (NetworkOverview.validate data = None →
   outcome (NetworkResource.get_overview self)
   = Raise (PydanticValidationError "NetworkOverview"))
  ∧ (NetworkStats.validate data = None →
     outcome (NetworkResource.get_stats self)
     = Raise (PydanticValidationError "NetworkStats"))
  ∧ (NodesList.validate data = None →
     ∀ status version search limit offset order_by order,
       outcome (NodesResource.list self status version search limit offset order_by order)
       = Raise (PydanticValidationError "NodesList"))
  ∧ (NodeDetails.validate data = None →
     ∀ id_or_address, id_defined id_or_address →
       outcome (NodesResource.get self id_or_address)
       = Raise (PydanticValidationError "NodeDetails"))
  ∧ (NodeMetrics.validate data = None →
     ∀ node_id range aggregation, str_of_int_defined node_id →
       outcome (NodesResource.get_metrics self node_id range aggregation)
       = Raise (PydanticValidationError "NodeMetrics"))
  ∧ (Leaderboard.validate data = None →
     ∀ metric order limit period,
       outcome (LeaderboardResource.get self metric order limit period)
       = Raise (PydanticValidationError "Leaderboard")).
Proof.
  intros Hhttp Hok Hj Hl Hr Hs.
  pose proof (after_response_success (PnodePulse.base self) _ _ _ _ _ Hok Hj Hl Hr Hs)
    as Hafter.
  repeat split; intros Hval; intros;
    unfold NodesResource.get, NodesResource.get_metrics; cbv zeta;
    try (rewrite format_id_ok by assumption; rewrite pure_ok_bind);
    try (rewrite str_of_int_ok by assumption; rewrite pure_ok_bind);
    eapply facade_decode_failure; eassumption.
Qed.

Lemma decode_failure_raises_pydantic_error_witness :
  outcome (@NodesResource.list exact_coercions
             (sample_client (always (Responds empty_object_200)))
             None (Some "1.2.3") None (Some 20%Z) None None None)
  = Raise (PydanticValidationError "NodesList").
Proof.
  refine (proj1 (proj2 (proj2 (@decode_failure_raises_pydantic_error exact_coercions
            (sample_client (always (Responds empty_object_200)))
            empty_object_200 (PyDict []) 30 29 1700000000
            (λ _, eq_refl) eq_refl eq_refl eq_refl eq_refl eq_refl))) eq_refl
            None (Some "1.2.3") None (Some 20%Z) None None None).
Defined.

(** C1 as stated fails: a NodesList body without its [total] makes
    [Nodes.list] raise pydantic's ValidationError, and no ValidationError of
    the SDK. *)
Lemma missing_total_raises_pydantic_error :
  outcome (@NodesResource.list exact_coercions
             (sample_client (always (Responds nodes_list_without_total)))
             None None None None None None None)
  = Raise (PydanticValidationError "NodesList")
  ∧ ¬ ∃ message,
        outcome (@NodesResource.list exact_coercions
                   (sample_client (always (Responds nodes_list_without_total)))
                   None None None None None None None)
        = Raise (Pulse (exceptions.ValidationError message)).
Proof.
  split; [reflexivity|]. intros [message Hm]. vm_compute in Hm. discriminate Hm.
Qed.

(** ** Query parameters *)

Lemma facade_params_sent {A : Type} (self : PnodePulse.t) (method path : string)
    (params : option (gmap string pyval)) (title : string) (validate : pyval → option A) :
  params_sent (PnodePulse._request self method path params
                 ≫= λ data, pure (model_validate title validate data))
  = [params].
Proof. rewrite facade_eq. reflexivity. Qed.

(** Looking a key up in a dict built by assignments under known keys. *)
Ltac lookup_key :=
  repeat first
    [ rewrite lookup_insert_eq
    | rewrite lookup_insert_ne by discriminate
    | rewrite lookup_singleton_ne by discriminate
    | rewrite lookup_singleton_eq ].

(** The key is there exactly when the argument was given and not empty. *)
Ltac given_and_not_empty :=
  split;
  [ intros Hx; try discriminate Hx; injection Hx as <-; eauto
  | intros (? & Hv & Hne & ->); try discriminate Hv; injection Hv as <-;
    try contradiction; reflexivity ].

Lemma list_params_version (status : string) (version search : option string)
    (limit offset : Z) (order_by order : string) (x : pyval) :
  NodesResource.list_params status version search limit offset order_by order !! "version"
    = Some x
  ↔ ∃ v, version = Some v ∧ v ≠ "" ∧ x = PyStr v.
Proof.
  unfold NodesResource.list_params.
  destruct version as [v|], search as [s|]; simpl;
    repeat match goal with
           | |- context [String.eqb ?a ""] => destruct (String.eqb_spec a "")
           end; simpl; lookup_key; given_and_not_empty.
Qed.

Lemma list_params_search (status : string) (version search : option string)
    (limit offset : Z) (order_by order : string) (x : pyval) :
  NodesResource.list_params status version search limit offset order_by order !! "search"
    = Some x
  ↔ ∃ s, search = Some s ∧ s ≠ "" ∧ x = PyStr s.
Proof.
  unfold NodesResource.list_params.
  destruct version as [v|], search as [s|]; simpl;
    repeat match goal with
           | |- context [String.eqb ?a ""] => destruct (String.eqb_spec a "")
           end; simpl; lookup_key; given_and_not_empty.
Qed.

(** C6.  [Nodes.list] with no argument sends exactly the parameters status
    all, limit 50, offset 0, orderBy lastSeen and order desc; and in every
    call the mapping has a [version] (a [search]) key only when the argument
    was given and is not the empty string, its value being the argument. *)
Theorem nodes_list_query_parameters `{pydantic.Coercions} (self : PnodePulse.t) :
  params_sent (NodesResource.list self None None None None None None None)
  = [Some {[ "status" := PyStr "all"; "limit" := PyInt 50; "offset" := PyInt 0;
             "orderBy" := PyStr "lastSeen"; "order" := PyStr "desc" ]}]
  ∧ ∀ status version search limit offset order_by order,
      ∃ params : gmap string pyval,
        params_sent (NodesResource.list self status version search limit offset
                       order_by order)
        = [Some params]
        ∧ (∀ x, params !! "version" = Some x ↔ ∃ v, version = Some v ∧ v ≠ "" ∧ x = PyStr v)
        ∧ (∀ x, params !! "search" = Some x ↔ ∃ s, search = Some s ∧ s ≠ "" ∧ x = PyStr s).
Proof.
  split.
  - unfold NodesResource.list. cbv zeta. rewrite facade_params_sent. reflexivity.
  - intros. eexists. split; [|split].
    + unfold NodesResource.list. cbv zeta. rewrite facade_params_sent. reflexivity.
    + intros x. apply list_params_version.
    + intros x. apply list_params_search.
Qed.

(** C7.  [top_uptime], [top_efficiency] and [top_storage] are [get] with the
    metric uptime, cpu and storage, the order top, the given limit and the
    period 7d: the same request is sent and the same result comes back. *)
Theorem leaderboard_wrappers_are_get `{pydantic.Coercions} (self : PnodePulse.t)
    (limit : Z) :
  (LeaderboardResource.top_uptime self (Some limit)
   = LeaderboardResource.get self (Some "uptime") (Some "top") (Some limit) (Some "7d")
   ∧ LeaderboardResource.top_efficiency self (Some limit)
     = LeaderboardResource.get self (Some "cpu") (Some "top") (Some limit) (Some "7d")
   ∧ LeaderboardResource.top_storage self (Some limit)
     = LeaderboardResource.get self (Some "storage") (Some "top") (Some limit) (Some "7d"))
  ∧ (params_sent (LeaderboardResource.top_uptime self (Some limit))
     = [Some {[ "metric" := PyStr "uptime"; "order" := PyStr "top";
                "limit" := PyInt limit; "period" := PyStr "7d" ]}]
     ∧ params_sent (LeaderboardResource.top_efficiency self (Some limit))
       = [Some {[ "metric" := PyStr "cpu"; "order" := PyStr "top";
                  "limit" := PyInt limit; "period" := PyStr "7d" ]}]
     ∧ params_sent (LeaderboardResource.top_storage self (Some limit))
       = [Some {[ "metric" := PyStr "storage"; "order" := PyStr "top";
                  "limit" := PyInt limit; "period" := PyStr "7d" ]}]).
Proof.
  split.
  - repeat split; reflexivity.
  - unfold LeaderboardResource.top_uptime, LeaderboardResource.top_efficiency,
      LeaderboardResource.top_storage, LeaderboardResource.get. cbv zeta.
    rewrite !facade_params_sent. repeat split; reflexivity.
Qed.

(** ** The two clients *)

Lemma async_facade_eq {A : Type} (self : AsyncPnodePulse.t) (method path : string)
    (params : option (gmap string pyval)) (title : string) (validate : pyval → option A) :
  (await (AsyncPnodePulse._request self method path params)
     ≫= λ data, pure (model_validate title validate data))
  = IO [request_of (AsyncPnodePulse.base self) method path params]
       (match AsyncPnodePulse._http self
                (request_of (AsyncPnodePulse.base self) method path params) with
        | Responds r => after_response (AsyncPnodePulse.base self) r
        | Fails e => Raise (after_failure e)
        end ≫= model_validate title validate).
Proof. unfold await. rewrite bind_pure, async_request_eq. reflexivity. Qed.

(** With the same configuration and a transport that replies alike, a facade
    method of the one client is that of the other. *)
Lemma facade_sync_async {A : Type} (sync : PnodePulse.t) (async : AsyncPnodePulse.t)
    (method path : string) (params : option (gmap string pyval)) (title : string)
    (validate : pyval → option A) :
  PnodePulse.base sync = AsyncPnodePulse.base async →
  (∀ req, PnodePulse._http sync req = AsyncPnodePulse._http async req) →
  (PnodePulse._request sync method path params
     ≫= λ data, pure (model_validate title validate data))
  = (await (AsyncPnodePulse._request async method path params)
       ≫= λ data, pure (model_validate title validate data)).
Proof.
  intros Hbase Hhttp. rewrite facade_eq, async_facade_eq, Hbase, Hhttp. reflexivity.
Qed.

(** C9.  A synchronous and an asynchronous client of the same configuration,
    over transports that reply alike to every request, agree on every
    resource method: the same request is sent, and the result is the same
    decoded record, or the same exception with the same fields. *)
Theorem sync_async_agree `{pydantic.Coercions} (sync : PnodePulse.t)
    (async : AsyncPnodePulse.t) :
  PnodePulse.base sync = AsyncPnodePulse.base async →
  (∀ req, PnodePulse._http sync req = AsyncPnodePulse._http async req) →
  NetworkResource.get_overview sync = AsyncNetworkResource.get_overview async
  ∧ NetworkResource.get_stats sync = AsyncNetworkResource.get_stats async
  ∧ (∀ status version search limit offset order_by order,
       NodesResource.list sync status version search limit offset order_by order
       = AsyncNodesResource.list async status version search limit offset order_by order)
  ∧ (∀ id_or_address,
       NodesResource.get sync id_or_address = AsyncNodesResource.get async id_or_address)
  ∧ (∀ node_id range aggregation,
       NodesResource.get_metrics sync node_id range aggregation
       = AsyncNodesResource.get_metrics async node_id range aggregation)
  ∧ (∀ metric order limit period,
       LeaderboardResource.get sync metric order limit period
       = AsyncLeaderboardResource.get async metric order limit period)
  ∧ (∀ limit,
       LeaderboardResource.top_uptime sync limit
       = AsyncLeaderboardResource.top_uptime async limit)
  ∧ (∀ limit,
       LeaderboardResource.top_efficiency sync limit
       = AsyncLeaderboardResource.top_efficiency async limit)
  ∧ (∀ limit,
       LeaderboardResource.top_storage sync limit
       = AsyncLeaderboardResource.top_storage async limit).
Proof.
  intros Hbase Hhttp.
  repeat split; intros;
    unfold NetworkResource.get_overview, AsyncNetworkResource.get_overview,
      NetworkResource.get_stats, AsyncNetworkResource.get_stats,
      NodesResource.list, AsyncNodesResource.list,
      NodesResource.get, AsyncNodesResource.get,
      NodesResource.get_metrics, AsyncNodesResource.get_metrics,
      LeaderboardResource.top_uptime, AsyncLeaderboardResource.top_uptime,
      LeaderboardResource.top_efficiency, AsyncLeaderboardResource.top_efficiency,
      LeaderboardResource.top_storage, AsyncLeaderboardResource.top_storage,
      LeaderboardResource.get, AsyncLeaderboardResource.get;
    cbv zeta; try unfold await at 1;
    try (apply facade_sync_async; assumption).
  - destruct (format_id id_or_address) as [id|e]; [|reflexivity].
    rewrite !pure_ok_bind. apply facade_sync_async; assumption.
  - destruct (str_of_int node_id) as [id|e]; [|reflexivity].
    rewrite !pure_ok_bind. apply facade_sync_async; assumption.
Qed.

Lemma sync_async_agree_witness :
  @NodesResource.list exact_coercions
    (sample_client (always (Responds nodes_list_empty_page)))
    None None None None None None None
  = @AsyncNodesResource.list exact_coercions
      (sample_async_client (always (Responds nodes_list_empty_page)))
      None None None None None None None
  ∧ outcome (@NodesResource.list exact_coercions
               (sample_client (always (Responds nodes_list_empty_page)))
               None None None None None None None)
    = Ok (NodesList.mk [] 0 50 0 false).
Proof.
  split.
  - exact (proj1 (proj2 (proj2 (@sync_async_agree exact_coercions
             (sample_client (always (Responds nodes_list_empty_page)))
             (sample_async_client (always (Responds nodes_list_empty_page)))
             eq_refl (λ _, eq_refl))))
             None None None None None None None).
  - reflexivity.
Defined.

(** * Further properties of the client *)

(** ** The base URL and the request headers *)

Lemma rstrip_slash_slashes (s : string) :
  ∃ n, s = rstrip_slash s +:+ slashes n.
Proof.
  induction s as [|a rest [n IH]]; [exists O; reflexivity|].
  simpl. destruct (rstrip_slash rest) as [|b stripped] eqn:E.
  - destruct (Ascii.eqb_spec a "/") as [->|Hne].
    + exists (S n). simpl in *. rewrite IH. reflexivity.
    + exists n. simpl in *. rewrite IH. reflexivity.
  - exists n. simpl in *. rewrite IH at 1. reflexivity.
Qed.

Lemma rstrip_slash_last (s : string) : last_char (rstrip_slash s) ≠ Some "/"%char.
Proof.
  induction s as [|a rest IH]; [discriminate|].
  simpl. destruct (rstrip_slash rest) as [|b stripped] eqn:E.
  - destruct (Ascii.eqb_spec a "/") as [->|Hne]; simpl; [discriminate|congruence].
  - exact IH.
Qed.

(** X1.  The base URL a client keeps is the URL it was given without its
    run of trailing slashes: nothing else is removed, and no slash is left at
    the end. *)
Theorem init_strips_trailing_slashes (api_key : option string) (base_url : string)
    (timeout : option float) :
  let self := BaseClient.__init__ api_key (Some base_url) timeout in
  (∃ n, base_url = BaseClient.base_url self +:+ slashes n)
  ∧ last_char (BaseClient.base_url self) ≠ Some "/"%char.
Proof.
  cbv zeta. simpl. split; [apply rstrip_slash_slashes | apply rstrip_slash_last].
Qed.

(** X2.  The headers of a request are Content-Type: application/json, the
    X-API-Key header exactly when the client has an API key that is not the
    empty string, with the key as its value, and no other header. *)
Theorem get_headers_content_type_and_key (self : BaseClient.t) :
  BaseClient._get_headers self !! "Content-Type" = Some "application/json"
  ∧ (∀ v, BaseClient._get_headers self !! "X-API-Key" = Some v
          ↔ BaseClient.api_key self = Some v ∧ v ≠ "")
  ∧ (∀ k, k ≠ "Content-Type" → k ≠ "X-API-Key" → BaseClient._get_headers self !! k = None).
Proof.
  unfold BaseClient._get_headers.
  destruct (BaseClient.api_key self) as [key|]; simpl.
  - destruct (String.eqb_spec key "") as [->|Hne]; simpl.
    + split; [reflexivity|]. split.
      * intros v. rewrite lookup_singleton_ne by discriminate. split; [discriminate|].
        intros [[= <-] Hv]. contradiction.
      * intros k H1 H2. rewrite lookup_singleton_ne by congruence. reflexivity.
    + split; [reflexivity|]. split.
      * intros v. rewrite lookup_insert_eq. split.
        -- intros [= <-]. split; [reflexivity | exact Hne].
        -- intros [[= <-] _]. reflexivity.
      * intros k H1 H2. rewrite lookup_insert_ne by congruence.
        rewrite lookup_singleton_ne by congruence. reflexivity.
  - split; [reflexivity|]. split.
    + intros v. rewrite lookup_singleton_ne by discriminate. split; [discriminate|].
      intros [H _]. discriminate H.
    + intros k H1 H2. rewrite lookup_singleton_ne by congruence. reflexivity.
Qed.

(** ** What [int()] accepts *)

Lemma skip_spaces_split (l : list ascii) :
  ∃ blanks, l = (blanks ++ skip_spaces l)%list ∧ Forall (λ a, is_space a = true) blanks.
Proof.
  induction l as [|a rest (blanks & Hl & Hb)]; [exists []; split; [reflexivity|constructor]|].
  simpl. destruct (is_space a) eqn:Ha.
  - exists (a :: blanks). split; [simpl; congruence | constructor; assumption].
  - exists []. split; [reflexivity | constructor].
Qed.

Lemma skip_spaces_nil (l : list ascii) :
  skip_spaces l = [] → Forall (λ a, is_space a = true) l.
Proof.
  intros H. destruct (skip_spaces_split l) as (blanks & Hl & Hb).
  rewrite H, app_nil_r in Hl. subst. exact Hb.
Qed.

Lemma scan_digits_split (l : list ascii) (prev_us : bool) (acc : Z) (count : nat)
    (n : Z) (count' : nat) (rest : list ascii) :
  scan_digits l prev_us acc count = Some (n, count', rest) →
  ∃ read, l = (read ++ rest)%list
          ∧ Forall (λ a, is_Some (digit_value a) ∨ is_underscore a = true) read.
Proof.
  revert prev_us acc count. induction l as [|a l IH]; intros prev_us acc count; simpl.
  - destruct prev_us; [discriminate|]. intros [= <- <- <-].
    exists []. split; [reflexivity | constructor].
  - destruct (digit_value a) as [d|] eqn:Hd.
    + intros H. destruct (IH _ _ _ H) as (read & Hl & Hr).
      exists (a :: read). split; [simpl; congruence|].
      constructor; [left; rewrite Hd; eauto | exact Hr].
    + destruct (is_underscore a) eqn:Hu.
      * destruct prev_us; [discriminate|].
        intros H. destruct (IH _ _ _ H) as (read & Hl & Hr).
        exists (a :: read). split; [simpl; congruence|].
        constructor; [right; exact Hu | exact Hr].
      * destruct prev_us; [discriminate|]. intros [= <- <- <-].
        exists []. split; [reflexivity | constructor].
Qed.

Lemma int_char_space (a : ascii) : is_space a = true → is_int_char a = true.
Proof. unfold is_int_char. intros ->. reflexivity. Qed.

Lemma int_char_digit (a : ascii) :
  is_Some (digit_value a) ∨ is_underscore a = true → is_int_char a = true.
Proof.
  unfold is_int_char. intros [H| ->].
  - rewrite (bool_decide_eq_true_2 _ H). rewrite orb_true_r. reflexivity.
  - rewrite !orb_true_r. reflexivity.
Qed.

(** A literal [int()] accepts holds nothing but blanks, signs, digits and
    underscores. *)
Lemma int_of_chars_chars (l : list ascii) (n : Z) :
  int_of_chars l = Some n → Forall (λ a, is_int_char a = true) l.
Proof.
  unfold int_of_chars.
  destruct (skip_spaces_split l) as (blanks & Hl & Hb).
  assert (Hblanks : Forall (λ a, is_int_char a = true) blanks).
  { eapply Forall_impl; [exact Hb | exact int_char_space]. }
  assert (Hbody : ∀ body,
            match body with
            | a :: _ =>
                if is_underscore a then None
                else
                  match scan_digits body false 0%Z 0 with
                  | Some (m, count, rest) =>
                      match count, skip_spaces rest with
                      | O, _ => None
                      | _, [] => if (int_max_str_digits <? count)%nat then None
                                 else Some m
                      | _, _ :: _ => None
                      end
                  | None => None
                  end
            | [] => None
            end ≠ None →
            Forall (λ a, is_int_char a = true) body).
  { intros body. destruct body as [|a body']; [congruence|].
    destruct (is_underscore a); [congruence|].
    destruct (scan_digits (a :: body') false 0 0) as [[[m count] rest]|] eqn:Hscan;
      [|congruence].
    destruct (scan_digits_split _ _ _ _ _ _ _ Hscan) as (read & Hr & Hread).
    destruct count; [congruence|].
    destruct (skip_spaces rest) eqn:Hrest; [|congruence].
    intros _. rewrite Hr. apply Forall_app. split.
    - eapply Forall_impl; [exact Hread | exact int_char_digit].
    - eapply Forall_impl; [exact (skip_spaces_nil _ Hrest) | exact int_char_space]. }
  rewrite Hl at 2. generalize dependent (skip_spaces l). intros body _ H.
  apply Forall_app. split; [exact Hblanks|].
  destruct body as [|a body']; [discriminate H|].
  destruct (Ascii.eqb_spec a "+") as [->|Hplus].
  - constructor; [reflexivity|]. apply Hbody.
    destruct body' as [|b body'']; [discriminate H|].
    destruct (is_underscore b); [discriminate H|].
    destruct (scan_digits (b :: body'') false 0 0) as [[[m count] rest]|];
      [|discriminate H].
    destruct count; [discriminate H|]. destruct (skip_spaces rest); [|discriminate H].
    destruct (int_max_str_digits <? S count)%nat; [discriminate H | discriminate].
  - destruct (Ascii.eqb_spec a "-") as [->|Hminus].
    + constructor; [reflexivity|]. apply Hbody.
      destruct body' as [|b body'']; [discriminate H|].
      destruct (is_underscore b); [discriminate H|].
      destruct (scan_digits (b :: body'') false 0 0) as [[[m count] rest]|];
        [|discriminate H].
      destruct count; [discriminate H|]. destruct (skip_spaces rest); [|discriminate H].
      destruct (int_max_str_digits <? S count)%nat; [discriminate H | discriminate].
    + apply Hbody.
      destruct (is_underscore a); [discriminate H|].
      destruct (scan_digits (a :: body') false 0 0) as [[[m count] rest]|];
        [|discriminate H].
      destruct count; [discriminate H|]. destruct (skip_spaces rest); [|discriminate H].
      destruct (int_max_str_digits <? S count)%nat; [discriminate H | discriminate].
Qed.

Lemma chars_append (a b : string) :
  list_ascii_of_string (a +:+ b)
  = (list_ascii_of_string a ++ list_ascii_of_string b)%list.
Proof. induction a as [|c a IH]; simpl; [reflexivity | rewrite IH; reflexivity]. Qed.

(** The values of a repeated header, joined, are no [int()] literal. *)
Lemma int_of_joined (x y : string) (rest : list string) :
  int_of_str (join_comma (x :: y :: rest)) = None.
Proof.
  destruct (int_of_str (join_comma (x :: y :: rest))) as [n|] eqn:E; [|reflexivity].
  exfalso. unfold int_of_str in E. apply int_of_chars_chars in E.
  change (join_comma (x :: y :: rest)) with (x +:+ ", " +:+ join_comma (y :: rest)) in E.
  rewrite chars_append in E. apply Forall_app in E as [_ E].
  rewrite chars_append in E. apply Forall_app in E as [E _].
  simpl in E. inversion E as [|? ? Hcomma _]. discriminate Hcomma.
Qed.

Lemma repeated_header_malformed (h : httpx.Headers.t) (key : string) :
  (2 ≤ List.length (httpx.Headers.values h key))%nat → header_malformed h key.
Proof.
  unfold header_malformed, httpx.Headers.getitem.
  destruct (httpx.Headers.values h key) as [|x [|y rest]]; simpl; try lia.
  intros _. eexists. split; [reflexivity | apply int_of_joined].
Qed.

(** One malformed rate-limit header makes [_parse_rate_limit] raise. *)
Lemma parse_rate_limit_malformed (self : BaseClient.t) (h : httpx.Headers.t) :
  header_malformed h "X-RateLimit-Limit"
  ∨ header_malformed h "X-RateLimit-Remaining"
  ∨ header_malformed h "X-RateLimit-Reset" →
  ∃ v, BaseClient._parse_rate_limit self h = Raise (ValueError v).
Proof.
  intros Hbad. unfold BaseClient._parse_rate_limit.
  destruct (int_header_cases h "X-RateLimit-Limit" 0) as [[l Hl]|Hl].
  2:{ destruct (int_header_malformed _ _ 0%Z Hl) as [v ->]. eauto. }
  rewrite (int_header_reads _ _ _ _ Hl). simpl.
  destruct (int_header_cases h "X-RateLimit-Remaining" 0) as [[r Hr]|Hr].
  2:{ destruct (int_header_malformed _ _ 0%Z Hr) as [v ->]. eauto. }
  rewrite (int_header_reads _ _ _ _ Hr). simpl.
  destruct (int_header_cases h "X-RateLimit-Reset" 0) as [[s Hs]|Hs].
  2:{ destruct (int_header_malformed _ _ 0%Z Hs) as [v ->]. eauto. }
  exfalso. unfold header_reads in Hl, Hr, Hs.
  destruct Hbad as [(v & Hget & Hint)|[(v & Hget & Hint)|(v & Hget & Hint)]];
    [rewrite Hget in Hl | rewrite Hget in Hr | rewrite Hget in Hs]; congruence.
Qed.

(** X3.  A rate-limit header that occurs more than once, under any
    spelling of its name, makes [_parse_rate_limit] raise a ValueError, even
    when every occurrence holds an integer: the values arrive joined by a
    comma. *)
Theorem repeated_rate_limit_header_raises (self : BaseClient.t) (h : httpx.Headers.t) :
  (2 ≤ List.length (httpx.Headers.values h "X-RateLimit-Limit"))%nat
  ∨ (2 ≤ List.length (httpx.Headers.values h "X-RateLimit-Remaining"))%nat
  ∨ (2 ≤ List.length (httpx.Headers.values h "X-RateLimit-Reset"))%nat →
  ∃ v, BaseClient._parse_rate_limit self h = Raise (ValueError v).
Proof.
  intros H. apply parse_rate_limit_malformed.
  destruct H as [H|[H|H]]; [left | right; left | right; right];
    apply repeated_header_malformed, H.
Qed.

Lemma repeated_rate_limit_header_raises_witness :
  ∃ v, BaseClient._parse_rate_limit (BaseClient.__init__ None None None)
         (httpx.Response.headers repeated_limit_200)
       = Raise (ValueError v).
Proof.
  apply repeated_rate_limit_header_raises. left. vm_compute. lia.
Defined.

(** ** What [_request] returns and what it lets through *)

Lemma parse_rate_limit_ok_reads (self : BaseClient.t) (h : httpx.Headers.t)
    (rate_limit : RateLimitInfo.t) :
  BaseClient._parse_rate_limit self h = Ok rate_limit →
  header_reads h "X-RateLimit-Limit" 0 (RateLimitInfo.limit rate_limit)
  ∧ header_reads h "X-RateLimit-Remaining" 0 (RateLimitInfo.remaining rate_limit)
  ∧ header_reads h "X-RateLimit-Reset" 0 (RateLimitInfo.reset rate_limit).
Proof.
  intros H.
  destruct (int_header_cases h "X-RateLimit-Limit" 0) as [[l Hl]|Hl];
    [|destruct (parse_rate_limit_malformed self h (or_introl Hl)); congruence].
  destruct (int_header_cases h "X-RateLimit-Remaining" 0) as [[r Hr]|Hr];
    [|destruct (parse_rate_limit_malformed self h (or_intror (or_introl Hr))); congruence].
  destruct (int_header_cases h "X-RateLimit-Reset" 0) as [[s Hs]|Hs];
    [|destruct (parse_rate_limit_malformed self h (or_intror (or_intror Hs))); congruence].
  rewrite (parse_rate_limit_reads self h l r s Hl Hr Hs) in H.
  injection H as <-. auto.
Qed.

Lemma after_response_error (self : BaseClient.t) (response : httpx.Response.t)
    (l r s : Z) (e : exn) :
  httpx.Response.is_success response = false →
  header_reads (httpx.Response.headers response) "X-RateLimit-Limit" 0 l →
  header_reads (httpx.Response.headers response) "X-RateLimit-Remaining" 0 r →
  header_reads (httpx.Response.headers response) "X-RateLimit-Reset" 0 s →
  BaseClient._handle_error_response self response (RateLimitInfo.mk l r s) = Raise e →
  after_response self response = Raise e.
Proof.
  intros Hok Hl Hr Hs He. unfold after_response.
  rewrite (parse_rate_limit_reads self _ l r s Hl Hr Hs). simpl.
  rewrite Hok. simpl. rewrite He. reflexivity.
Qed.

(** X4.  [_request] returns a value exactly when the transport answers with
    a 2xx response whose three rate-limit headers read and whose body is
    JSON, and the value is that JSON: the rate-limit headers decide whether
    the call succeeds, and the RateLimitInfo parsed from them is not part of
    what comes back. *)
Theorem request_returns_iff (self : PnodePulse.t) (method path : string)
    (params : option (gmap string pyval)) (data : pyval) :
  outcome (PnodePulse._request self method path params) = Ok data
  ↔ ∃ response l r s,
      PnodePulse._http self (request_of (PnodePulse.base self) method path params)
        = Responds response
      ∧ httpx.Response.is_success response = true
      ∧ header_reads (httpx.Response.headers response) "X-RateLimit-Limit" 0 l
      ∧ header_reads (httpx.Response.headers response) "X-RateLimit-Remaining" 0 r
      ∧ header_reads (httpx.Response.headers response) "X-RateLimit-Reset" 0 s
      ∧ httpx.Response.json response = Some data.
Proof.
  rewrite request_eq. simpl. split.
  - destruct (PnodePulse._http self _) as [response|e]; [|discriminate].
    unfold after_response.
    destruct (BaseClient._parse_rate_limit _ _) as [rl|x] eqn:Hparse; [|discriminate].
    simpl. destruct (httpx.Response.is_success response) eqn:Hok; simpl.
    + unfold response_json.
      destruct (httpx.Response.json response) as [v|] eqn:Hj; [|discriminate].
      intros [= <-].
      destruct (parse_rate_limit_ok_reads _ _ _ Hparse) as (Hl & Hr & Hs).
      eauto 10.
    + destruct (handle_error_response_raises (PnodePulse.base self) response rl) as [x ->].
      discriminate.
  - intros (response & l & r & s & -> & Hok & Hl & Hr & Hs & Hj).
    eapply after_response_success; eassumption.
Qed.

(** X5.  When the transport answers and one of the three rate-limit headers
    is present and malformed, [_request] raises the ValueError of [int()]
    whatever the status and the body: a good 2xx body is not returned, and a
    404 or a 429 is not translated. *)
Theorem malformed_rate_limit_preempts (self : PnodePulse.t) (method path : string)
    (params : option (gmap string pyval)) (response : httpx.Response.t) :
  PnodePulse._http self (request_of (PnodePulse.base self) method path params)
    = Responds response →
  header_malformed (httpx.Response.headers response) "X-RateLimit-Limit"
  ∨ header_malformed (httpx.Response.headers response) "X-RateLimit-Remaining"
  ∨ header_malformed (httpx.Response.headers response) "X-RateLimit-Reset" →
  ∃ v, outcome (PnodePulse._request self method path params) = Raise (ValueError v).
Proof.
  intros Hhttp Hbad. rewrite request_eq, Hhttp. simpl. unfold after_response.
  destruct (parse_rate_limit_malformed (PnodePulse.base self) _ Hbad) as [v ->].
  exists v. reflexivity.
Qed.

Lemma malformed_rate_limit_preempts_witness :
  ∃ v, outcome (PnodePulse._request
                  (sample_client (always (Responds not_found_bad_header)))
                  "GET" "/api/v1/nodes/7" None)
       = Raise (ValueError v).
Proof.
  apply (malformed_rate_limit_preempts
           (sample_client (always (Responds not_found_bad_header)))
           "GET" "/api/v1/nodes/7" None not_found_bad_header eq_refl).
  left. exists "unlimited". split; reflexivity.
Defined.

(** X6.  A 2xx response whose body is not JSON makes [_request] raise the
    decoding error of [response.json()], which is not an exception of the
    SDK. *)
Theorem success_without_json_raises (self : PnodePulse.t) (method path : string)
    (params : option (gmap string pyval)) (response : httpx.Response.t) (l r s : Z) :
  PnodePulse._http self (request_of (PnodePulse.base self) method path params)
    = Responds response →
  httpx.Response.is_success response = true →
  header_reads (httpx.Response.headers response) "X-RateLimit-Limit" 0 l →
  header_reads (httpx.Response.headers response) "X-RateLimit-Remaining" 0 r →
  header_reads (httpx.Response.headers response) "X-RateLimit-Reset" 0 s →
  httpx.Response.json response = None →
  outcome (PnodePulse._request self method path params) = Raise JSONDecodeError.
Proof.
  intros Hhttp Hok Hl Hr Hs Hj. rewrite request_eq, Hhttp. simpl. unfold after_response.
  rewrite (parse_rate_limit_reads _ _ l r s Hl Hr Hs). simpl. rewrite Hok. simpl.
  unfold response_json. rewrite Hj. reflexivity.
Qed.

Lemma success_without_json_raises_witness :
  outcome (PnodePulse._request (sample_client (always (Responds html_200)))
             "GET" "/api/v1/network" None)
  = Raise JSONDecodeError.
Proof.
  apply (success_without_json_raises (sample_client (always (Responds html_200)))
           "GET" "/api/v1/network" None html_200 30 29 1700000000); reflexivity.
Defined.

Lemma timeout_is_request_error (e : exn) :
  isinstance_RequestError e = false → isinstance_TimeoutException e = false.
Proof. destruct e as [| | | | |c msg|]; try reflexivity. destruct c; simpl; congruence. Qed.

(** X7.  An exception of the transport that is not one of httpx's request
    errors (an invalid URL, a cancelled task, a closed client) leaves
    [_request] as it is: it is not wrapped in an SDK error, and one request
    was handed to the transport. *)
Theorem foreign_exception_propagates (self : PnodePulse.t) (method path : string)
    (params : option (gmap string pyval)) (e : exn) :
  PnodePulse._http self (request_of (PnodePulse.base self) method path params) = Fails e →
  isinstance_RequestError e = false →
  PnodePulse._request self method path params
  = IO [request_of (PnodePulse.base self) method path params] (Raise e).
Proof.
  intros Hhttp He. rewrite request_eq, Hhttp. unfold after_failure.
  rewrite (timeout_is_request_error _ He), He. reflexivity.
Qed.

Lemma foreign_exception_propagates_witness :
  outcome (PnodePulse._request
             (sample_client (always (Fails (HttpxError httpx.InvalidURL "no host"))))
             "GET" "/api/v1/network" None)
  = Raise (HttpxError httpx.InvalidURL "no host").
Proof.
  exact (f_equal outcome
           (foreign_exception_propagates
              (sample_client (always (Fails (HttpxError httpx.InvalidURL "no host"))))
              "GET" "/api/v1/network" None _ eq_refl eq_refl)).
Defined.

Lemma request_returns_iff_witness :
  outcome (PnodePulse._request (sample_client (always (Responds empty_object_200)))
             "GET" "/api/v1/network" None)
  = Ok (PyDict []).
Proof.
  apply (proj2 (request_returns_iff (sample_client (always (Responds empty_object_200)))
                  "GET" "/api/v1/network" None (PyDict []))).
  exists empty_object_200, 30%Z, 29%Z, 1700000000%Z. repeat split; reflexivity.
Defined.

(** ** The requests of the facades *)

Lemma facade_sent {A : Type} (self : PnodePulse.t) (method path : string)
    (params : option (gmap string pyval)) (title : string) (validate : pyval → option A) :
  sent (PnodePulse._request self method path params
          ≫= λ data, pure (model_validate title validate data))
  = [request_of (PnodePulse.base self) method path params].
Proof. rewrite facade_eq. reflexivity. Qed.

(** X8.  Whatever the transport does, [Network.get_overview],
    [Network.get_stats] and [Nodes.get] hand it exactly one request: a GET
    without query parameters, with the headers of the client, to the base URL
    followed by /api/v1/network, /api/v1/network/stats and /api/v1/nodes/
    with the id or the address, the address as it is given and the id, one
    that Python prints, in decimal. *)
Theorem parameterless_facades_send_one_get `{pydantic.Coercions} (self : PnodePulse.t) :
  let get path :=
    [httpx.Request.mk "GET" (BaseClient.base_url (PnodePulse.base self) +:+ path) None
       (BaseClient._get_headers (PnodePulse.base self))] in
  sent (NetworkResource.get_overview self) = get "/api/v1/network"
  ∧ sent (NetworkResource.get_stats self) = get "/api/v1/network/stats"
  ∧ (∀ address : string,
       sent (NodesResource.get self (inr address)) = get ("/api/v1/nodes/" +:+ address))
  ∧ (∀ id : Z, str_of_int_defined id →
       sent (NodesResource.get self (inl id)) = get ("/api/v1/nodes/" +:+ pretty id)).
Proof.
  cbv zeta. repeat split; intros;
    unfold NetworkResource.get_overview, NetworkResource.get_stats, NodesResource.get;
    try (rewrite format_id_ok by (exact I || assumption); rewrite pure_ok_bind);
    rewrite facade_sent; reflexivity.
Qed.

Lemma parameterless_facades_send_one_get_witness :
  sent (@NodesResource.get exact_coercions
          (sample_client (always (Responds empty_object_404))) (inl 7%Z))
  = [httpx.Request.mk "GET" "https://pulse.rectorspace.com/api/v1/nodes/7" None
       {[ "Content-Type" := "application/json" ]}].
Proof.
  refine (proj2 (proj2 (proj2 (@parameterless_facades_send_one_get exact_coercions
            (sample_client (always (Responds empty_object_404)))))) 7%Z _).
  vm_compute. reflexivity.
Defined.




(** X11.  In every call of [Nodes.list] the five keys status, limit,
    offset, orderBy and order are in the query parameters with the values of
    the arguments (the defaults when left out), unchecked, and the mapping
    has no key besides these five, version and search. *)
Theorem nodes_list_parameters_complete `{pydantic.Coercions} (self : PnodePulse.t)
    (status version search : option string) (limit offset : option Z)
    (order_by order : option string) :
  ∃ params : gmap string pyval,
    params_sent (NodesResource.list self status version search limit offset order_by order)
    = [Some params]
    ∧ params !! "status" = Some (PyStr (arg "all" status))
    ∧ params !! "limit" = Some (PyInt (arg 50%Z limit))
    ∧ params !! "offset" = Some (PyInt (arg 0%Z offset))
    ∧ params !! "orderBy" = Some (PyStr (arg "lastSeen" order_by))
    ∧ params !! "order" = Some (PyStr (arg "desc" order))
    ∧ ∀ k, k ≠ "status" → k ≠ "limit" → k ≠ "offset" → k ≠ "orderBy" → k ≠ "order" →
           k ≠ "version" → k ≠ "search" → params !! k = None.
Proof.
  eexists. split.
  { unfold NodesResource.list. cbv zeta. rewrite facade_params_sent. reflexivity. }
  unfold NodesResource.list_params.
  destruct version as [v|], search as [s|]; simpl;
    repeat match goal with
           | |- context [String.eqb ?a ""] => destruct (String.eqb_spec a "")
           end; simpl;
    (repeat split; [lookup_key; reflexivity ..|]);
    intros k H1 H2 H3 H4 H5 H6 H7;
    repeat first [ rewrite lookup_insert_ne by congruence
                 | rewrite lookup_singleton_ne by congruence ];
    reflexivity.
Qed.

(** ** What the raised error carries *)

(** X12.  An SDK error raised by [_handle_error_response] has the status
    of the response as its status.  It carries the RateLimitInfo it was given
    unless the status is 404 or 401, where it carries none, and it has a
    [retry_after] exactly on a 429. *)
Theorem raised_error_status_and_rate_limit (self : BaseClient.t)
    (response : httpx.Response.t) (rate_limit : RateLimitInfo.t) (e : exceptions.t) :
  BaseClient._handle_error_response self response rate_limit = Raise (Pulse e) →
  let status := httpx.Response.status_code response in
  exceptions.status e = Some status
  ∧ (status = 404%Z ∨ status = 401%Z → exceptions.rate_limit e = None)
  ∧ (status ≠ 404%Z → status ≠ 401%Z → exceptions.rate_limit e = Some rate_limit)
  ∧ (is_Some (exceptions.retry_after e) ↔ status = 429%Z).
Proof.
  rewrite handle_error_response_eq. cbv zeta.
  destruct (Z.eqb_spec (httpx.Response.status_code response) 429) as [E429|N429].
  - destruct (int_ _) as [n|x] eqn:Hint; simpl.
    + intros [= <-]. simpl. rewrite E429.
      repeat split; try (intros []; discriminate); eauto.
    + destruct (int_raises_value_error _ _ Hint) as [v ->]. discriminate.
  - destruct (Z.eqb_spec (httpx.Response.status_code response) 404) as [E404|N404].
    + intros [= <-]. simpl. rewrite E404.
      repeat split; try congruence; try (intros [? ?]; discriminate).
    + destruct (Z.eqb_spec (httpx.Response.status_code response) 401) as [E401|N401].
      * intros [= <-]. simpl. rewrite E401.
        repeat split; try congruence; try (intros [? ?]; discriminate).
      * intros [= <-]. simpl.
        repeat split; try congruence; try (intros [? ?]; discriminate).
        intros [? | ?]; contradiction.
Qed.

Lemma raised_error_status_and_rate_limit_witness :
  ∃ e, BaseClient._handle_error_response (BaseClient.__init__ None None None)
         unauthorized_401 sample_rate_limit = Raise (Pulse e)
       ∧ exceptions.status e = Some 401%Z
       ∧ exceptions.rate_limit e = None.
Proof.
  eexists. split; [reflexivity|].
  pose proof (raised_error_status_and_rate_limit (BaseClient.__init__ None None None)
                unauthorized_401 sample_rate_limit _ eq_refl) as (Hs & Hn & _).
  split; [exact Hs | apply Hn; right; reflexivity].
Defined.

(** X13.  On every status, 429, 404 and 401 included, the message of the SDK
    error raised by [_handle_error_response] is the [message] of the body's
    [error] object when the body is JSON with such an object and message, and
    the response text, or Unknown error when the text is empty, when the body
    is not JSON. *)
Theorem raised_error_message_on_every_status (self : BaseClient.t)
    (response : httpx.Response.t) (rate_limit : RateLimitInfo.t) (e : exceptions.t) :
  BaseClient._handle_error_response self response rate_limit = Raise (Pulse e) →
  (∀ items err message,
     httpx.Response.json response = Some (PyDict items) →
     dict_get items "error" = Some (PyDict err) →
     dict_get err "message" = Some message →
     exceptions.message e = message)
  ∧ (httpx.Response.json response = None →
     (httpx.Response.text response ≠ "" →
      exceptions.message e = PyStr (httpx.Response.text response))
     ∧ (httpx.Response.text response = "" →
        exceptions.message e = PyStr "Unknown error")).
Proof.
  intros Hr. rewrite (raised_error_message _ _ _ _ Hr). unfold extracted. split.
  - intros items err message Hj He Hm.
    rewrite (error_of_body_error_object _ _ _ Hj He), Hm. reflexivity.
  - intros Hj. rewrite (error_of_body_invalid_json _ Hj).
    unfold BaseClient.error_of_text, str_or. simpl. split.
    + intros Ht. destruct (String.eqb_spec (httpx.Response.text response) "");
        [contradiction | reflexivity].
    + intros ->. reflexivity.
Qed.

Lemma raised_error_message_on_every_status_witness :
  ∃ e, BaseClient._handle_error_response (BaseClient.__init__ None None None)
         unauthorized_401 sample_rate_limit = Raise (Pulse e)
       ∧ exceptions.message e = PyStr "bad key".
Proof.
  eexists. split; [reflexivity|].
  exact (proj1 (raised_error_message_on_every_status (BaseClient.__init__ None None None)
                  unauthorized_401 sample_rate_limit _ eq_refl)
           _ _ _ eq_refl eq_refl eq_refl).
Defined.

(** ** Facades: failure and success *)

Lemma facade_raises {A : Type} (self : PnodePulse.t) (method path : string)
    (params : option (gmap string pyval)) (title : string) (validate : pyval → option A)
    (response : httpx.Response.t) (e : exn) :
  (∀ req, PnodePulse._http self req = Responds response) →
  after_response (PnodePulse.base self) response = Raise e →
  outcome (PnodePulse._request self method path params
             ≫= λ data, pure (model_validate title validate data))
  = Raise e.
Proof. intros Hhttp Hafter. rewrite facade_eq, Hhttp, Hafter. reflexivity. Qed.

(** X14.  When the transport answers with a response that is not 2xx and
    whose rate-limit headers read, every resource method raises what
    [_handle_error_response] raises for that response and the RateLimitInfo
    of its headers, and validates nothing; [Nodes.get] and
    [Nodes.get_metrics] for an id that the f-string of the path prints, one
    of at most 4300 digits. *)
Theorem facades_raise_the_translated_error `{pydantic.Coercions} (self : PnodePulse.t)
    (response : httpx.Response.t) (l r s : Z) (e : exn) :
  (∀ req, PnodePulse._http self req = Responds response) →
  httpx.Response.is_success response = false →
  header_reads (httpx.Response.headers response) "X-RateLimit-Limit" 0 l →
  header_reads (httpx.Response.headers response) "X-RateLimit-Remaining" 0 r →
  header_reads (httpx.Response.headers response) "X-RateLimit-Reset" 0 s →
  BaseClient._handle_error_response (PnodePulse.base self) response (RateLimitInfo.mk l r s)
    = Raise e →
  outcome (NetworkResource.get_overview self) = Raise e
  ∧ outcome (NetworkResource.get_stats self) = Raise e
  ∧ (∀ status version search limit offset order_by order,
       outcome (NodesResource.list self status version search limit offset order_by order)
       = Raise e)
  ∧ (∀ id_or_address, id_defined id_or_address →
       outcome (NodesResource.get self id_or_address) = Raise e)
  ∧ (∀ node_id range aggregation, str_of_int_defined node_id →
       outcome (NodesResource.get_metrics self node_id range aggregation) = Raise e)
  ∧ (∀ metric order limit period,
       outcome (LeaderboardResource.get self metric order limit period) = Raise e).
Proof.
  intros Hhttp Hok Hl Hr Hs He.
  pose proof (after_response_error _ _ _ _ _ _ Hok Hl Hr Hs He) as Hafter.
  repeat split; intros;
    unfold NodesResource.get, NodesResource.get_metrics; cbv zeta;
    try (rewrite format_id_ok by assumption; rewrite pure_ok_bind);
    try (rewrite str_of_int_ok by assumption; rewrite pure_ok_bind);
    eapply facade_raises; eassumption.
Qed.

Lemma facades_raise_the_translated_error_witness :
  outcome (@NodesResource.get exact_coercions
             (sample_client (always (Responds empty_object_404))) (inr "10.0.0.7:9001"))
  = Raise (Pulse (exceptions.mk exceptions.NotFoundError_cls (PyStr "Unknown error")
                    (PyStr "NOT_FOUND") (Some 404%Z) None None)).
Proof.
  exact (proj1 (proj2 (proj2 (proj2
           (@facades_raise_the_translated_error exact_coercions
              (sample_client (always (Responds empty_object_404))) empty_object_404
              30 29 1700000000 _ (λ _, eq_refl) eq_refl eq_refl eq_refl eq_refl eq_refl))))
           (inr "10.0.0.7:9001") I).
Defined.

(** X15.  When the transport answers with a 2xx response whose rate-limit
    headers read and whose body is an object with a list [nodes] of nodes that
    validate, members [total], [limit] and [offset] that are ints and a member
    [hasMore] that is a bool, [Nodes.list] returns the NodesList made of these,
    [has_more] being the wire's [hasMore]. *)
Theorem nodes_list_returns_the_page `{pydantic.Coercions} (self : PnodePulse.t)
    (response : httpx.Response.t) (l r s : Z) (items : list (string * pyval))
    (raw_nodes : list pyval) (v_total v_limit v_offset v_more : pyval)
    (nodes : list Node.t) (total limit offset : Z) (has_more : bool) :
  (∀ req, PnodePulse._http self req = Responds response) →
  httpx.Response.is_success response = true →
  header_reads (httpx.Response.headers response) "X-RateLimit-Limit" 0 l →
  header_reads (httpx.Response.headers response) "X-RateLimit-Remaining" 0 r →
  header_reads (httpx.Response.headers response) "X-RateLimit-Reset" 0 s →
  httpx.Response.json response = Some (PyDict items) →
  dict_get items "nodes" = Some (PyList raw_nodes) →
  mapM Node.validate raw_nodes = Some nodes →
  dict_get items "total" = Some v_total → pydantic.to_int v_total = Some total →
  dict_get items "limit" = Some v_limit → pydantic.to_int v_limit = Some limit →
  dict_get items "offset" = Some v_offset → pydantic.to_int v_offset = Some offset →
  dict_get items "hasMore" = Some v_more → pydantic.to_bool v_more = Some has_more →
  ∀ status version search limit' offset' order_by order,
    outcome (NodesResource.list self status version search limit' offset' order_by order)
    = Ok (NodesList.mk nodes total limit offset has_more).
Proof.
  intros Hhttp Hok Hl Hr Hs Hj Hn Hnodes Ht Htv Hli Hliv Ho Hov Hm Hmv.
  intros. unfold NodesResource.list. cbv zeta.
  rewrite facade_eq, Hhttp.
  rewrite (after_response_success _ _ _ _ _ _ Hok Hj Hl Hr Hs). simpl.
  unfold mbind, result_bind, model_validate, NodesList.validate, pydantic.model,
    pydantic.required, pydantic.lookup, pydantic.list_of.
  rewrite Hn, Ht, Hli, Ho, Hm. simpl.
  rewrite Hnodes. simpl. rewrite Htv. simpl. rewrite Hliv. simpl.
  rewrite Hov. simpl. rewrite Hmv. reflexivity.
Qed.

Lemma nodes_list_returns_the_page_witness :
  outcome (@NodesResource.list epoch_coercions
             (sample_client (always (Responds nodes_list_one_node)))
             None None None None None None None)
  = Ok (NodesList.mk [Node.mk 7 "10.0.0.7:9001" None None true None epoch] 1 50 0 false).
Proof.
  exact (@nodes_list_returns_the_page epoch_coercions
           (sample_client (always (Responds nodes_list_one_node))) nodes_list_one_node
           30 29 1700000000 _ [bare_node] _ _ _ _ _ _ _ _ _
           (λ _, eq_refl) eq_refl eq_refl eq_refl eq_refl eq_refl eq_refl eq_refl
           eq_refl eq_refl eq_refl eq_refl eq_refl eq_refl eq_refl eq_refl
           None None None None None None None).
Defined.

(** ** The models *)

(** X16.  Whatever pydantic accepts for a scalar, a 2xx response whose JSON
    body is not an object, or is the empty object, makes every resource
    method raise pydantic's ValidationError: each of the six models has a
    required member.  [Nodes.get] and [Nodes.get_metrics] come that far for
    an id that the f-string of the path prints, one of at most 4300 digits. *)
Theorem bodies_without_members_are_rejected `{pydantic.Coercions} (self : PnodePulse.t)
    (response : httpx.Response.t) (data : pyval) (l r s : Z) :
  (∀ req, PnodePulse._http self req = Responds response) →
  httpx.Response.is_success response = true →
  httpx.Response.json response = Some data →
  header_reads (httpx.Response.headers response) "X-RateLimit-Limit" 0 l →
  header_reads (httpx.Response.headers response) "X-RateLimit-Remaining" 0 r →
  header_reads (httpx.Response.headers response) "X-RateLimit-Reset" 0 s →
  is_dict data = false ∨ data = PyDict [] →
  outcome (NetworkResource.get_overview self)
  = Raise (PydanticValidationError "NetworkOverview")
  ∧ outcome (NetworkResource.get_stats self) = Raise (PydanticValidationError "NetworkStats")
  ∧ (∀ status version search limit offset order_by order,
       outcome (NodesResource.list self status version search limit offset order_by order)
       = Raise (PydanticValidationError "NodesList"))
  ∧ (∀ id_or_address, id_defined id_or_address →
       outcome (NodesResource.get self id_or_address)
       = Raise (PydanticValidationError "NodeDetails"))
  ∧ (∀ node_id range aggregation, str_of_int_defined node_id →
       outcome (NodesResource.get_metrics self node_id range aggregation)
       = Raise (PydanticValidationError "NodeMetrics"))
  ∧ (∀ metric order limit period,
       outcome (LeaderboardResource.get self metric order limit period)
       = Raise (PydanticValidationError "Leaderboard")).
Proof.
  intros Hhttp Hok Hj Hl Hr Hs Hdata.
  pose proof (after_response_success (PnodePulse.base self) _ _ _ _ _ Hok Hj Hl Hr Hs)
    as Hafter.
  repeat split; intros;
    unfold NodesResource.get, NodesResource.get_metrics; cbv zeta;
    try (rewrite format_id_ok by assumption; rewrite pure_ok_bind);
    try (rewrite str_of_int_ok by assumption; rewrite pure_ok_bind);
    eapply facade_decode_failure; try eassumption;
    (destruct Hdata as [Hd| ->]; [destruct data; try discriminate Hd|]; reflexivity).
Qed.

Lemma bodies_without_members_are_rejected_witness :
  outcome (@LeaderboardResource.get exact_coercions
             (sample_client (always (Responds empty_object_200))) None None None None)
  = Raise (PydanticValidationError "Leaderboard").
Proof.
  exact (proj2 (proj2 (proj2 (proj2 (proj2
           (@bodies_without_members_are_rejected exact_coercions
              (sample_client (always (Responds empty_object_200))) empty_object_200
              (PyDict []) 30 29 1700000000 (λ _, eq_refl) eq_refl eq_refl eq_refl eq_refl
              eq_refl (or_intror eq_refl))))))
           None None None None).
Defined.

Lemma optional_absent_or_null {A : Type} (found : option pyval)
    (validate : pyval → option A) :
  absent_or_null found →
  pydantic.with_default found None (pydantic.optional validate) = Some None.
Proof. intros [-> | ->]; reflexivity. Qed.

(** X17.  A node whose [id], [address], [isActive] and [firstSeen] validate
    and whose [pubkey], [version] and [lastSeen] are absent or null validates,
    with None for the three; [lastSeen] counts as absent when neither it nor
    [last_seen] is there. *)
Theorem node_optional_members_default `{pydantic.Coercions}
    (items : list (string * pyval)) (v_id v_address v_active v_first : pyval)
    (id : Z) (address : string) (is_active : bool) (first_seen : pydantic.datetime) :
  dict_get items "id" = Some v_id → pydantic.to_int v_id = Some id →
  dict_get items "address" = Some v_address → pydantic.to_str v_address = Some address →
  dict_get items "isActive" = Some v_active → pydantic.to_bool v_active = Some is_active →
  dict_get items "firstSeen" = Some v_first →
  pydantic.to_datetime v_first = Some first_seen →
  absent_or_null (dict_get items "pubkey") →
  absent_or_null (dict_get items "version") →
  (dict_get items "lastSeen" = None ∧ dict_get items "last_seen" = None)
  ∨ dict_get items "lastSeen" = Some PyNone →
  Node.validate (PyDict items)
  = Some (Node.mk id address None None is_active None first_seen).
Proof.
  intros Hi Hiv Ha Hav Hac Hacv Hf Hfv Hp Hv Hl.
  unfold Node.validate, pydantic.model, pydantic.required, pydantic.lookup.
  rewrite Hi, Ha, Hac, Hf. simpl. rewrite Hiv. simpl. rewrite Hav. simpl.
  rewrite (optional_absent_or_null _ _ Hp). simpl.
  rewrite (optional_absent_or_null _ _ Hv). simpl.
  rewrite Hacv. simpl.
  destruct Hl as [[Hl1 Hl2]|Hl1]; rewrite Hl1; [rewrite Hl2|]; simpl;
    rewrite Hfv; reflexivity.
Qed.

Lemma node_optional_members_default_witness :
  @Node.validate epoch_coercions bare_node
  = Some (Node.mk 7 "10.0.0.7:9001" None None true None epoch).
Proof.
  apply (@node_optional_members_default epoch_coercions _ (PyInt 7)
           (PyStr "10.0.0.7:9001") (PyBool true) (PyInt 0));
    try reflexivity; try (left; reflexivity).
  left. split; reflexivity.
Defined.

(** Two dicts that agree on the members a model reads validate alike. *)
Ltac same_members Hagree :=
  unfold pydantic.model, pydantic.required, pydantic.with_default, pydantic.lookup;
  cbv beta;
  repeat (rewrite Hagree by (simpl; tauto));
  reflexivity.

(** X18.  Validation of a response body reads the members of the model and
    nothing else: two objects that agree on them validate alike, whatever
    other members they hold and in whatever order, so that a member the
    model does not know is ignored and not an error. *)
Theorem validation_reads_only_its_members `{pydantic.Coercions}
    (a b : list (string * pyval)) :
  let agree keys := ∀ key, In key keys → dict_get a key = dict_get b key in
  (agree ["nodes"; "versions"; "metrics"] →
   NetworkOverview.validate (PyDict a) = NetworkOverview.validate (PyDict b))
  ∧ (agree ["cpu"; "ram"; "storage"; "uptime"; "nodeCount"; "node_count"] →
     NetworkStats.validate (PyDict a) = NetworkStats.validate (PyDict b))
  ∧ (agree ["nodes"; "total"; "limit"; "offset"; "hasMore"; "has_more"] →
     NodesList.validate (PyDict a) = NodesList.validate (PyDict b))
  ∧ (agree ["id"; "address"; "pubkey"; "version"; "isActive"; "is_active"; "lastSeen";
            "last_seen"; "firstSeen"; "first_seen"; "metrics"; "peerCount"; "peer_count";
            "metricsCount"; "metrics_count"] →
     NodeDetails.validate (PyDict a) = NodeDetails.validate (PyDict b))
  ∧ (agree ["nodeId"; "node_id"; "range"; "aggregation"; "data"] →
     NodeMetrics.validate (PyDict a) = NodeMetrics.validate (PyDict b))
  ∧ (agree ["metric"; "period"; "order"; "rankings"] →
     Leaderboard.validate (PyDict a) = Leaderboard.validate (PyDict b)).
Proof.
  cbv zeta. repeat split; intros Hagree.
  - unfold NetworkOverview.validate. same_members Hagree.
  - unfold NetworkStats.validate. same_members Hagree.
  - unfold NodesList.validate. same_members Hagree.
  - unfold NodeDetails.validate. same_members Hagree.
  - unfold NodeMetrics.validate. same_members Hagree.
  - unfold Leaderboard.validate. same_members Hagree.
Qed.

Lemma validation_reads_only_its_members_witness :
  @Leaderboard.validate exact_coercions
    (PyDict [("generatedAt", PyInt 0); ("rankings", PyList []); ("order", PyStr "top");
             ("period", PyStr "7d"); ("metric", PyStr "uptime")])
  = @Leaderboard.validate exact_coercions
      (PyDict [("metric", PyStr "uptime"); ("period", PyStr "7d"); ("order", PyStr "top");
               ("rankings", PyList [])]).
Proof.
  apply (proj2 (proj2 (proj2 (proj2 (proj2
           (@validation_reads_only_its_members exact_coercions _ _)))))).
  intros key [<-|[<-|[<-|[<-|[]]]]]; reflexivity.
Defined.

(** ** The asynchronous request primitive *)

(** X19.  [AsyncPnodePulse._request] is [PnodePulse._request] when the two
    clients have the same configuration and their transports reply alike:
    the same request is sent, and the result, the translation of transport
    failures and of error responses included, is the same. *)
Theorem async_request_agrees (sync : PnodePulse.t) (async : AsyncPnodePulse.t)
    (method path : string) (params : option (gmap string pyval)) :
  PnodePulse.base sync = AsyncPnodePulse.base async →
  (∀ req, PnodePulse._http sync req = AsyncPnodePulse._http async req) →
  AsyncPnodePulse._request async method path params
  = PnodePulse._request sync method path params.
Proof.
  intros Hbase Hhttp. rewrite request_eq, async_request_eq, Hbase, Hhttp. reflexivity.
Qed.

Lemma async_request_agrees_witness :
  AsyncPnodePulse._request
    (sample_async_client (always (Fails (HttpxError httpx.ReadTimeout "timed out"))))
    "GET" "/api/v1/leaderboard" None
  = IO [httpx.Request.mk "GET" "https://pulse.rectorspace.com/api/v1/leaderboard" None
          {[ "Content-Type" := "application/json" ]}]
       (Raise (Pulse (exceptions.mk exceptions.TimeoutError_cls (PyStr "Request timed out")
                        (PyStr "TIMEOUT") None None None))).
Proof.
  exact (eq_trans
           (async_request_agrees
              (sample_client (always (Fails (HttpxError httpx.ReadTimeout "timed out"))))
              (sample_async_client
                 (always (Fails (HttpxError httpx.ReadTimeout "timed out"))))
              "GET" "/api/v1/leaderboard" None eq_refl (λ _, eq_refl))
           eq_refl).
Defined.

(** ** Header names *)

Lemma ascii_lower_idempotent (a : ascii) : ascii_lower (ascii_lower a) = ascii_lower a.
Proof. destruct a as [[] [] [] [] [] [] [] []]; reflexivity. Qed.

Lemma lower_idempotent (s : string) : lower (lower s) = lower s.
Proof.
  induction s as [|a s IH]; simpl; [reflexivity|].
  rewrite ascii_lower_idempotent, IH. reflexivity.
Qed.

Lemma values_lowered (h : httpx.Headers.t) (key : string) :
  httpx.Headers.values (map (λ kv, (lower kv.1, kv.2)) h) key = httpx.Headers.values h key.
Proof.
  unfold httpx.Headers.values. induction h as [|[k v] h IH]; [reflexivity|].
  cbn [map fst snd filter list_filter]. rewrite lower_idempotent.
  destruct (decide (String.eqb (lower k) (lower key) = true));
    cbn [map snd]; [f_equal|]; exact IH.
Qed.

(** X20.  The rate-limit headers are found under any spelling of their
    names: a response whose header names arrive in lower case, as over
    HTTP/2, gives the same RateLimitInfo, or the same ValueError. *)
Theorem parse_rate_limit_ignores_case (self : BaseClient.t) (h : httpx.Headers.t) :
  BaseClient._parse_rate_limit self (map (λ kv, (lower kv.1, kv.2)) h)
  = BaseClient._parse_rate_limit self h.
Proof.
  unfold BaseClient._parse_rate_limit, httpx.Headers.get, httpx.Headers.getitem.
  rewrite !values_lowered. reflexivity.
Qed.

(** ** Ids that do not print *)

Lemma str_of_int_refused (n : Z) :
  ¬ str_of_int_defined n → ∃ v, str_of_int n = Raise (ValueError v).
Proof.
  unfold str_of_int, str_of_int_defined. intros Hn.
  apply Z.ltb_nlt in Hn. rewrite Hn. eauto.
Qed.

(** X21.  An integer id of more than 4300 digits makes [Nodes.get] and
    [Nodes.get_metrics] raise the ValueError of the f-string that builds the
    path, and no request is handed to the transport. *)
Theorem oversized_id_raises_before_request `{pydantic.Coercions} (self : PnodePulse.t)
    (n : Z) :
  ¬ str_of_int_defined n →
  (∃ v, NodesResource.get self (inl n) = IO [] (Raise (ValueError v)))
  ∧ ∀ range aggregation,
      ∃ v, NodesResource.get_metrics self n range aggregation = IO [] (Raise (ValueError v)).
Proof.
  intros Hn. destruct (str_of_int_refused n Hn) as [v Hv]. split.
  - exists v. unfold NodesResource.get, format_id. rewrite Hv. apply pure_raise_bind.
  - intros range aggregation. exists v.
    unfold NodesResource.get_metrics. cbv zeta. rewrite Hv. apply pure_raise_bind.
Qed.

Lemma oversized_id_raises_before_request_witness :
  ∃ v, @NodesResource.get exact_coercions
         (sample_client (always (Responds empty_object_200))) (inl (10 ^ 4300)%Z)
       = IO [] (Raise (ValueError v)).
Proof.
  apply (@oversized_id_raises_before_request exact_coercions).
  unfold str_of_int_defined. rewrite Z.abs_eq by (apply Z.pow_nonneg; lia).
  apply Z.lt_irrefl.
Defined.
